(** * Solana Error Translator: the failure-classification pipeline

    A shallow embedding of [backend/app/main.py]: the catalogue helpers
    [_lookup_error] and [_program_name], the compiled pattern
    [_ERROR_PATTERN] with the part of Python's [re] engine it needs, and the
    request handler [analyze_transaction].

    Python strings are sequences of Unicode code points, dictionaries are
    finite maps, exceptions are an explicit [result] type. *)

From Stdlib Require Import NArith ZArith String Ascii List Lia.
From stdpp Require Import base option list gmap.
Import ListNotations.

#[local] Set Warnings "-register-all".
#[local] Open Scope N_scope.

(** ** Python [str]: a sequence of code points *)

Abbreviation pystr := (list N).

(** An ASCII literal of the source, as a [str]. *)
Definition py (lit : string) : pystr :=
  N_of_ascii <$> list_ascii_of_string lit.
Arguments py lit%_string.

(** [Py_UNICODE_ISSPACE]: the characters [str.isspace], [str.strip] and the
    regex classes [\s]/[\S] call whitespace. *)
Definition Py_UNICODE_ISSPACE (ch : N) : bool :=
  ((0x09 <=? ch) && (ch <=? 0x0D)) || ((0x1C <=? ch) && (ch <=? 0x20))
  || (ch =? 0x85) || (ch =? 0xA0) || (ch =? 0x1680)
  || ((0x2000 <=? ch) && (ch <=? 0x200A))
  || (ch =? 0x2028) || (ch =? 0x2029) || (ch =? 0x202F) || (ch =? 0x205F)
  || (ch =? 0x3000).

(** [str.lstrip()], [str.rstrip()], [str.strip()] with no argument. *)
Fixpoint lstrip (s : pystr) : pystr :=
  match s with
  | ch :: s' => if Py_UNICODE_ISSPACE ch then lstrip s' else s
  | [] => []
  end.

Definition rstrip (s : pystr) : pystr := reverse (lstrip (reverse s)).

Definition strip (s : pystr) : pystr := rstrip (lstrip s).

(** [str.lower()].  CPython lowers a string of ASCII characters byte by
    byte and hands every other string to the Unicode database; that table
    is the parameter [unicode_lower]. *)
Definition ascii_lower (ch : N) : N :=
  if (0x41 <=? ch) && (ch <=? 0x5A) then ch + 32 else ch.

Definition isascii (s : pystr) : bool := forallb (fun ch => ch <? 128) s.

Definition lower (unicode_lower : pystr -> pystr) (s : pystr) : pystr :=
  if isascii s then ascii_lower <$> s else unicode_lower s.

(** ** The regular-expression engine, as far as [_ERROR_PATTERN] uses it *)

(** One-character items: a literal, the class [\S], a bracket set given by
    its ranges. *)
Inductive atom :=
| LITERAL (ch : N)
| NOT_SPACE
| IN (ranges : list (N * N)).

(** Patterns: one character, a greedy [+] over one character, a sequence,
    a capturing group. *)
Inductive regex :=
| ATOM (a : atom)
| MAX_REPEAT (a : atom)
| SEQ (r1 r2 : regex)
| SUBPATTERN (group : nat) (r : regex).

Record Pattern := { re_code : regex; IGNORECASE : bool }.

(** The ASCII characters (and [c] itself) that [re.IGNORECASE] identifies
    with the subject character [c]: the other case of an ASCII letter, and
    the four non-ASCII letters whose case mapping lands on [i], [s], [k].
    This is all of IGNORECASE for a pattern whose literals and ranges are
    ASCII, as those of [_ERROR_PATTERN] are. *)
Definition case_variants (c : N) : list N :=
  if (0x41 <=? c) && (c <=? 0x5A) then [c; c + 32]
  else if (0x61 <=? c) && (c <=? 0x7A) then [c; c - 32]
  else if (c =? 0x130) || (c =? 0x131) then [c; 0x69; 0x49]
  else if c =? 0x17F then [c; 0x73; 0x53]
  else if c =? 0x212A then [c; 0x6B; 0x4B]
  else [c].

Definition in_ranges (ranges : list (N * N)) (c : N) : bool :=
  existsb (fun r => (fst r <=? c) && (c <=? snd r)) ranges.

Definition atom_plain (a : atom) (c : N) : bool :=
  match a with
  | LITERAL ch => c =? ch
  | NOT_SPACE => negb (Py_UNICODE_ISSPACE c)
  | IN ranges => in_ranges ranges c
  end.

(** Does the subject character [c] match the item?  Under IGNORECASE a
    literal or a range matches when one of the case variants of [c] does. *)
Definition atom_match (ignorecase : bool) (a : atom) (c : N) : bool :=
  match a with
  | NOT_SPACE => atom_plain a c
  | _ => if ignorecase then existsb (atom_plain a) (case_variants c)
         else atom_plain a c
  end.

Abbreviation groups := (gmap nat pystr).

Section Backtracking.
Context {R : Type}.

(** Greedy repetition: take as many characters as match, then give the
    rest to the continuation, giving characters back one at a time while
    the continuation fails. *)
Fixpoint repeat_greedy (p : N -> bool) (s : pystr)
    (k : pystr -> option R) : option R :=
  match s with
  | c :: s' =>
      if p c then
        match repeat_greedy p s' k with
        | Some r => Some r
        | None => k s
        end
      else k s
  | [] => k []
  end.

(** The backtracking matcher, anchored at the head of [s]; [k] is what
    remains to be matched after [r], [g] the groups captured so far. *)
Fixpoint sre_match (ic : bool) (r : regex) (s : pystr) (g : groups)
    (k : pystr -> groups -> option R) : option R :=
  match r with
  | ATOM a =>
      match s with
      | c :: s' => if atom_match ic a c then k s' g else None
      | [] => None
      end
  | MAX_REPEAT a =>
      match s with
      | c :: s' =>
          if atom_match ic a c
          then repeat_greedy (atom_match ic a) s' (fun rest => k rest g)
          else None
      | [] => None
      end
  | SEQ r1 r2 =>
      sre_match ic r1 s g (fun s1 g1 => sre_match ic r2 s1 g1 k)
  | SUBPATTERN n r' =>
      sre_match ic r' s g
        (fun rest g' => k rest (<[n := take (length s - length rest) s]> g'))
  end.
End Backtracking.

(** [Pattern.search]: the leftmost position at which the pattern matches;
    the match object is the map from group numbers to captured text, group
    0 being the whole match. *)
Fixpoint search_from (ic : bool) (r : regex) (s : pystr) : option groups :=
  match sre_match ic r s ∅
          (fun rest g => Some (<[0%nat := take (length s - length rest) s]> g)) with
  | Some m => Some m
  | None =>
      match s with
      | _ :: s' => search_from ic r s'
      | [] => None
      end
  end.

Definition search (p : Pattern) (s : pystr) : option groups :=
  search_from (IGNORECASE p) (re_code p) s.

(** A run of literal characters followed by [tail]. *)
Definition literals (s : pystr) (tail : regex) : regex :=
  foldr (fun ch r => SEQ (ATOM (LITERAL ch)) r) tail s.

Definition hex_ranges : list (N * N) :=
  [(0x30, 0x39); (0x61, 0x66); (0x41, 0x46)].

(** [re.compile(r"Program (\S+) failed: custom program error: (0x[0-9a-fA-F]+)",
    re.IGNORECASE)] *)
Definition _ERROR_PATTERN : Pattern :=
  {| re_code :=
       literals (py "Program ")
         (SEQ (SUBPATTERN 1 (MAX_REPEAT NOT_SPACE))
            (literals (py " failed: custom program error: ")
               (SUBPATTERN 2
                  (literals (py "0x") (MAX_REPEAT (IN hex_ranges))))));
     IGNORECASE := true |}.


(** ** Python objects, truthiness, exceptions *)

(** What [json.load] produces and what the handler returns; a float is kept
    as its IEEE-754 binary64 bit pattern. *)
Inductive pyval :=
| PyNone
| PyBool (b : bool)
| PyInt (z : Z)
| PyFloat (bits : N)
| PyStr (s : pystr)
| PyList (l : list pyval)
| PyDict (d : gmap pystr pyval).

(** [bool(v)], as [if v] and [not v] use it. *)
Definition truthy (v : pyval) : bool :=
  match v with
  | PyNone => false
  | PyBool b => b
  | PyInt z => negb (z =? 0)%Z
  | PyFloat bits => negb (N.clearbit bits 63 =? 0)
  | PyStr s => negb (length s =? 0)%nat
  | PyList l => negb (length l =? 0)%nat
  | PyDict d => negb (size d =? 0)%nat
  end.

Inductive exception :=
| HTTPException (status_code : Z) (detail : pystr)
| KeyError (key : pystr)
| TypeError
| AttributeError
| IndexError.

Inductive result (A : Type) :=
| Return (a : A)
| Raise (e : exception).
Arguments Return {A} a.
Arguments Raise {A} e.

#[global] Instance result_ret : MRet result := fun A a => Return a.
#[global] Instance result_bind : MBind result := fun A B f m =>
  match m with
  | Return a => f a
  | Raise e => Raise e
  end.

(** [d.get(key, default)]: only a dict has the method. *)
Definition dict_get (d : pyval) (key : pystr) (dflt : pyval) : result pyval :=
  match d with
  | PyDict m => Return (default dflt (m !! key))
  | _ => Raise AttributeError
  end.

(** [d[key]] for a [str] key. *)
Definition getitem (d : pyval) (key : pystr) : result pyval :=
  match d with
  | PyDict m =>
      match m !! key with
      | Some v => Return v
      | None => Raise (KeyError key)
      end
  | _ => Raise TypeError
  end.

(** A dict display [{k1: v1, ...}]. *)
Definition dict (items : list (pystr * pyval)) : pyval :=
  PyDict (list_to_map items).

(** [m.group(n)] *)
Definition group (m : groups) (n : nat) : result pystr :=
  match m !! n with
  | Some s => Return s
  | None => Raise IndexError
  end.

(** ** What the handler takes from outside *)

(** An exception raised inside a library call: whether it is an instance of
    [ValueError], and its [str()]. *)
Record raised := { is_ValueError : bool; exc_str : pystr }.

(** [resp.value.transaction.meta]: [err] is [None] for a transaction that
    succeeded, [log_messages] may be [None]. *)
Record TransactionStatusMeta (E : Type) :=
  { err : option E; log_messages : option (list pystr) }.
Arguments err {E} _.
Arguments log_messages {E} _.

Record AnalyzeRequest := { signature : pystr }.

(** The surroundings of one request: the Unicode tables, the catalogue read
    at start-up, the process environment, and the Solana client library:
    [new_Client] stands for the two imports and [Client(rpc_url)],
    [Signature_from_string] for [Signature.from_string], [get_transaction]
    for [client.get_transaction], giving [resp.value]: [None], or the
    transaction, of which the handler reads [transaction.meta]. *)
Record World := {
  unicode_lower : pystr -> pystr;
  ERROR_DB : pyval;
  environ : gmap pystr pystr;
  Client : Type;
  Signature : Type;
  TransactionError : Type;
  new_Client : pystr -> raised + Client;
  Signature_from_string : pystr -> raised + Signature;
  get_transaction :
    Client -> Signature -> raised + option (TransactionStatusMeta TransactionError)
}.

(** ** The catalogue helpers *)

Definition _lookup_error (W : World) (program_id error_code : pystr)
    : result pyval :=
  program_entry ← dict_get (ERROR_DB W) program_id PyNone;
  if negb (truthy program_entry) then Return PyNone
  else
    errors ← dict_get program_entry (py "errors") (PyDict ∅);
    dict_get errors (lower (unicode_lower W) error_code) PyNone.

Definition _program_name (W : World) (program_id : pystr) : result pyval :=
  entry ← dict_get (ERROR_DB W) program_id PyNone;
  if truthy entry then getitem entry (py "name")
  else Return (PyStr program_id).

(** ** The handler *)

(** Step 2, the body of the [try]: build the client, parse the stripped
    signature, ask the node. *)
Definition fetch_transaction (W : World) (rpc_url : pystr) (body : AnalyzeRequest)
    : raised + option (TransactionStatusMeta (TransactionError W)) :=
  match new_Client W rpc_url with
  | inl exc => inl exc
  | inr client =>
      match Signature_from_string W (strip (signature body)) with
      | inl exc => inl exc
      | inr sig => get_transaction W client sig
      end
  end.

(** Step 5, the [for] loop with its [break]: the first line the pattern is
    found in, as [(program_id, error_code, matched_log)]. *)
Fixpoint scan_logs (W : World) (logs : list pystr)
    : result (option (pystr * pystr * pystr)) :=
  match logs with
  | [] => Return None
  | line :: rest =>
      match search _ERROR_PATTERN line with
      | Some m =>
          program_id ← group m 1;
          code ← group m 2;
          Return (Some (program_id, lower (unicode_lower W) code, line))
      | None => scan_logs W rest
      end
  end.

(** [x or []] *)
Definition or_empty {A} (x : option (list A)) : list A :=
  match x with
  | Some (a :: l) => a :: l
  | _ => []
  end.

Definition msg_rpc_url_not_set : pystr :=
  py "SOLANA_RPC_URL is not set. Please create a .env file from .env.example.".

Definition msg_not_found : pystr :=
  py "Transaction not found. The signature may be invalid, "
  ++ py "the transaction may not have been confirmed yet, or it "
  ++ py "may have been pruned from the RPC node's history.".

Definition msg_success : pystr :=
  py "This transaction completed successfully " ++ [0x2014]
  ++ py " no errors were found.".

Definition msg_unparsed : pystr :=
  py "The transaction failed, but no custom program error code was "
  ++ py "found in the transaction logs. The error may be a system-level "
  ++ py "failure (e.g., insufficient SOL for fees, account not found).".

Definition msg_unknown (error_code program_id : pystr) : pystr :=
  py "The transaction failed with error code " ++ error_code ++ py " "
  ++ py "from program " ++ program_id
  ++ py ", but this code is not yet in our database.".

(** Steps 4 to 8 of the handler: what it answers once the fetch has given
    it the status of a transaction (the specification's [classify]). *)
Definition classify (W : World)
    (meta : TransactionStatusMeta (TransactionError W)) : result pyval :=
  (* 4. Transaction was successful *)
  match err meta with
  | None =>
      Return (dict [(py "status", PyStr (py "success"));
                    (py "message", PyStr msg_success)])
  | Some _ =>
  (* 5. Transaction failed: search logs for a custom program error *)
  let logs := or_empty (log_messages meta) in
  found ← scan_logs W logs;
  match found with
  (* 6. No structured error code found in logs *)
  | None =>
      Return (dict [(py "status", PyStr (py "error_unparsed"));
                    (py "message", PyStr msg_unparsed);
                    (py "raw_logs", PyList (PyStr <$> logs))])
  | Some (program_id, error_code, matched_log) =>
  (* 7. Look up the error in our local database *)
  error_info ← _lookup_error W program_id error_code;
  if truthy error_info then
    program_name ← _program_name W program_id;
    name ← getitem error_info (py "name");
    message ← getitem error_info (py "message");
    Return (dict [(py "status", PyStr (py "error_found"));
                  (py "program_id", PyStr program_id);
                  (py "program_name", program_name);
                  (py "error_code", PyStr error_code);
                  (py "name", name);
                  (py "message", message)])
  else
  (* 8. Error code exists but is not in our database yet *)
    program_name ← _program_name W program_id;
    Return (dict [(py "status", PyStr (py "error_unknown"));
                  (py "program_id", PyStr program_id);
                  (py "program_name", program_name);
                  (py "error_code", PyStr error_code);
                  (py "message", PyStr (msg_unknown error_code program_id));
                  (py "raw_log", PyStr matched_log)])
  end end.

Definition analyze_transaction (W : World) (body : AnalyzeRequest)
    : result pyval :=
  (* 1. Read RPC URL from environment *)
  match environ W !! py "SOLANA_RPC_URL" with
  | None | Some [] => Raise (HTTPException 500 msg_rpc_url_not_set)
  | Some rpc_url =>
  (* 2. Fetch transaction from the Solana network *)
  match fetch_transaction W rpc_url body with
  | inl exc =>
      if is_ValueError exc
      then Raise (HTTPException 400
                    (py "Invalid transaction signature: " ++ exc_str exc))
      else Raise (HTTPException 502
                    (py "Failed to reach the Solana RPC node: " ++ exc_str exc))
  (* 3. Handle "transaction not found" *)
  | inr None => Raise (HTTPException 404 msg_not_found)
  | inr (Some meta) => classify W meta
  end end.

(** ** The catalogue document *)

(** Modelled from the spec: the catalogue file [errors.json] that
    [json.load] reads at start-up is not among the sources.  Section 3 of
    the specification gives its shape: a mapping
    [program_id -> {name, errors: {error_code -> {name, message}}}]. *)
Record ErrorEntry := { error_name : pystr; error_message : pystr }.

Record ProgramEntry :=
  { program_name : pystr; program_errors : gmap pystr ErrorEntry }.

Definition json_of_error (e : ErrorEntry) : pyval :=
  dict [(py "name", PyStr (error_name e));
        (py "message", PyStr (error_message e))].

Definition json_of_program (p : ProgramEntry) : pyval :=
  dict [(py "name", PyStr (program_name p));
        (py "errors", PyDict (json_of_error <$> program_errors p))].

(** The object [json.load] builds from a catalogue of that shape. *)
Definition json_of_catalog (c : gmap pystr ProgramEntry) : pyval :=
  PyDict (json_of_program <$> c).

(** The entry the catalogue holds for a program and a lower-case code. *)
Definition catalog_entry (C : gmap pystr ProgramEntry)
    (program_id code : pystr) : option ErrorEntry :=
  p ← C !! program_id; program_errors p !! code.

(** [display_name] of section 4.1: the catalogue's name for the program,
    else the identifier itself. *)
Definition display_name (C : gmap pystr ProgramEntry) (program_id : pystr)
    : pystr :=
  from_option program_name program_id (C !! program_id).

(** ** The four answers the handler returns *)

Definition response_success : pyval :=
  dict [(py "status", PyStr (py "success"));
        (py "message", PyStr msg_success)].

Definition response_error_unparsed (raw_logs : list pystr) : pyval :=
  dict [(py "status", PyStr (py "error_unparsed"));
        (py "message", PyStr msg_unparsed);
        (py "raw_logs", PyList (PyStr <$> raw_logs))].

Definition response_error_found
    (program_id program_name error_code name message : pystr) : pyval :=
  dict [(py "status", PyStr (py "error_found"));
        (py "program_id", PyStr program_id);
        (py "program_name", PyStr program_name);
        (py "error_code", PyStr error_code);
        (py "name", PyStr name);
        (py "message", PyStr message)].

Definition response_error_unknown
    (program_id program_name error_code raw_log : pystr) : pyval :=
  dict [(py "status", PyStr (py "error_unknown"));
        (py "program_id", PyStr program_id);
        (py "program_name", PyStr program_name);
        (py "error_code", PyStr error_code);
        (py "message", PyStr (msg_unknown error_code program_id));
        (py "raw_log", PyStr raw_log)].

(** ** Declarative reading of patterns *)

(** [matches ic r s g g']: the text [s], as a whole, is matched by [r],
    taking the captured groups from [g] to [g']. *)
Inductive matches (ic : bool) : regex -> pystr -> groups -> groups -> Prop :=
| matches_atom a c g :
    atom_match ic a c = true ->
    matches ic (ATOM a) [c] g g
| matches_repeat a s g :
    s <> [] ->
    Forall (fun c => atom_match ic a c = true) s ->
    matches ic (MAX_REPEAT a) s g g
| matches_seq r1 r2 s1 s2 g g1 g2 :
    matches ic r1 s1 g g1 ->
    matches ic r2 s2 g1 g2 ->
    matches ic (SEQ r1 r2) (s1 ++ s2) g g2
| matches_group n r s g g' :
    matches ic r s g g' ->
    matches ic (SUBPATTERN n r) s g (<[n := s]> g').

(** [w] spells the literal text [lit] up to what IGNORECASE identifies. *)
Definition same_ignoring_case (lit w : pystr) : Prop :=
  Forall2 (fun ch c => ch ∈ case_variants c) lit w.

(** A non-empty run of characters none of which is whitespace. *)
Definition nonspace_token (t : pystr) : Prop :=
  t <> [] /\ Forall (fun c => Py_UNICODE_ISSPACE c = false) t.

Definition hex_digit (c : N) : bool := in_ranges hex_ranges c.

Definition lower_hex_digit (c : N) : bool :=
  in_ranges [(0x30, 0x39); (0x61, 0x66)] c.

(** [code] is [0x] or [0X] followed by at least one hexadecimal digit of
    either case. *)
Definition hex_literal (code : pystr) : Prop :=
  exists x hex,
    code = 0x30 :: x :: hex /\ (x = 0x78 \/ x = 0x58)
    /\ hex <> [] /\ Forall (fun c => hex_digit c = true) hex.

(** The text [t] is an occurrence of
    [Program <program_id> failed: custom program error: <code>], its
    literal words read case-insensitively. *)
Definition custom_error_text (t program_id code : pystr) : Prop :=
  exists P F,
    t = P ++ program_id ++ F ++ code
    /\ same_ignoring_case (py "Program ") P
    /\ nonspace_token program_id
    /\ same_ignoring_case (py " failed: custom program error: ") F
    /\ hex_literal code.

(** The form as the specification words it (section 4.2): the line is,
    from its first to its last character, the words as written, a token
    and a hexadecimal literal. *)
Definition spec_custom_error_line (line : pystr) : Prop :=
  exists program_id code,
    line = py "Program " ++ program_id
           ++ py " failed: custom program error: " ++ code
    /\ nonspace_token program_id
    /\ hex_literal code.

(** Two spellings of one code that differ in the case of ASCII letters
    only. *)
Definition same_code_ignoring_case (c1 c2 : pystr) : Prop :=
  isascii c1 = true /\ isascii c2 = true
  /\ ascii_lower <$> c1 = ascii_lower <$> c2.

(** ** What the specification calls the fetch outcome *)

(** Section 4.3 keys the state on the outcome of the fetch and, for a
    record, on [succeeded] and the log lines. *)
Inductive fetch_outcome :=
| EndpointNotConfigured
| FetchInvalid (detail : pystr)
| FetchUnreachableNode (detail : pystr)
| Absent
| Record_ (succeeded : bool) (log_lines : list pystr).

Definition outcome (W : World) (body : AnalyzeRequest) : fetch_outcome :=
  match environ W !! py "SOLANA_RPC_URL" with
  | None | Some [] => EndpointNotConfigured
  | Some rpc_url =>
      match fetch_transaction W rpc_url body with
      | inl exc =>
          if is_ValueError exc then FetchInvalid (exc_str exc)
          else FetchUnreachableNode (exc_str exc)
      | inr None => Absent
      | inr (Some meta) =>
          Record_ (bool_decide (err meta = None))
                  (or_empty (log_messages meta))
      end
  end.

(** The fetch step handed the handler the record [meta]: the endpoint is
    configured and the library calls returned a transaction. *)
Definition fetched (W : World) (body : AnalyzeRequest)
    (meta : TransactionStatusMeta (TransactionError W)) : Prop :=
  exists rpc_url,
    environ W !! py "SOLANA_RPC_URL" = Some rpc_url /\ rpc_url <> []
    /\ fetch_transaction W rpc_url body = inr (Some meta).

(** [line] is the first of [logs], in document order, in which the pattern
    is found, [m] being the match found in it. *)
Definition first_match (logs : list pystr) (line : pystr) (m : groups) : Prop :=
  exists pre suf,
    logs = pre ++ line :: suf
    /\ Forall (fun l => search _ERROR_PATTERN l = None) pre
    /\ search _ERROR_PATTERN line = Some m.

(** ** Readings of answers and of matches *)

(** The [status] field of what the handler returned. *)
Definition status_of (r : result pyval) : option pystr :=
  match r with
  | Return (PyDict d) =>
      match d !! py "status" with
      | Some (PyStr s) => Some s
      | _ => None
      end
  | _ => None
  end.

Definition is_upper (c : N) : bool := (0x41 <=? c) && (c <=? 0x5A).

(** What is left of [s] after its longest prefix of characters that
    satisfy [p]. *)
Fixpoint after_run (p : N -> bool) (s : pystr) : pystr :=
  match s with
  | c :: s' => if p c then after_run p s' else s
  | [] => []
  end.

(** No line of [logs] has the pattern in it. *)
Definition no_match (logs : list pystr) : Prop :=
  Forall (fun l => search _ERROR_PATTERN l = None) logs.

(** ** A small world to run the handler in *)

Definition demo_catalog : gmap pystr ProgramEntry :=
  {[ py "ABC123" :=
       {| program_name := py "Demo Program";
          program_errors :=
            {[ py "0x1" := {| error_name := py "Unauthorized";
                              error_message := py "Signer mismatch" |} ]} |} ]}.

Definition demo_logs : list pystr :=
  [py "Program ABC123 invoke [1]";
   py "Program ABC123 failed: custom program error: 0X1";
   py "Program DEF456 failed: custom program error: 0x2"].

(** A node that knows five signatures. *)
Definition demo_node (sig : pystr)
    : raised + option (TransactionStatusMeta unit) :=
  if bool_decide (sig = py "succeeded") then
    inr (Some {| err := None; log_messages := Some [py "Program ABC123 success"] |})
  else if bool_decide (sig = py "failed") then
    inr (Some {| err := Some tt; log_messages := Some demo_logs |})
  else if bool_decide (sig = py "failed-unknown") then
    inr (Some {| err := Some tt; log_messages := Some (drop 2 demo_logs) |})
  else if bool_decide (sig = py "failed-nologs") then
    inr (Some {| err := Some tt; log_messages := None |})
  else if bool_decide (sig = py "timeout") then
    inl {| is_ValueError := false; exc_str := py "timed out" |}
  else inr None.

Definition demo_world_with (db : pyval) (env : gmap pystr pystr) : World :=
  {| unicode_lower := fun s => s;
     ERROR_DB := db;
     environ := env;
     Client := pystr;
     Signature := pystr;
     TransactionError := unit;
     new_Client := fun url => inr url;
     Signature_from_string := fun s =>
       if bool_decide (s = py "malformed")
       then inl {| is_ValueError := true; exc_str := py "invalid base58" |}
       else inr s;
     get_transaction := fun _ sig => demo_node sig |}.

Definition demo_world (env : gmap pystr pystr) : World :=
  demo_world_with (json_of_catalog demo_catalog) env.

Definition demo_env : gmap pystr pystr :=
  {[ py "SOLANA_RPC_URL" := py "http://localhost:8899" ]}.

(** A world whose node answers every signature with one and the same
    transaction, and whose catalogue object is [db]. *)
Definition constant_world (db : pyval) (meta : TransactionStatusMeta unit)
    : World :=
  {| unicode_lower := fun s => s;
     ERROR_DB := db;
     environ := demo_env;
     Client := unit;
     Signature := pystr;
     TransactionError := unit;
     new_Client := fun _ => inr tt;
     Signature_from_string := fun s => inr s;
     get_transaction := fun _ _ => inr (Some meta) |}.

Definition system_failure : TransactionStatusMeta unit :=
  {| err := Some tt;
     log_messages := Some [py "Program X invoke [1]";
                           py "Program X failed: insufficient funds"] |}.

(** A catalogue object outside the specified shape: one program whose
    entry has no name and no errors, one whose entry is empty, one whose
    entry is [null]. *)
Definition odd_db : pyval :=
  dict [(py "NoName", dict [(py "note", PyStr (py "to do"))]);
        (py "Empty", dict []);
        (py "Null", PyNone)].

Definition failure_of (program_id : pystr) : TransactionStatusMeta unit :=
  {| err := Some tt;
     log_messages :=
       Some [py "Program " ++ program_id
             ++ py " failed: custom program error: 0x1"] |}.


(** * Properties *)

(** ** The model at work *)

Example strip_example :
  strip ([0x3000; 0x09] ++ py " 5Gx  y" ++ [0x0A; 0xA0]) = py "5Gx  y".
Proof. reflexivity. Qed.

Example lower_example :
  lower (fun s => s) (py "0X1aF") = py "0x1af".
Proof. reflexivity. Qed.

Example search_spec_scenario :
  search _ERROR_PATTERN (py "Program ABC123 failed: custom program error: 0x1")
  = Some (<[0%nat := py "Program ABC123 failed: custom program error: 0x1"]>
           (<[2%nat := py "0x1"]> (<[1%nat := py "ABC123"]> ∅))).
Proof. vm_compute. reflexivity. Qed.

(** Greedy [\S+] gives characters back: the leftmost occurrence wins, and
    the long-i, dotless-i and long-s letters count as [i] and [s]. *)
Example search_unicode_words :
  search _ERROR_PATTERN
    (py "x Program p:q fa" ++ [0x130] ++ py "led: cu" ++ [0x17F]
     ++ py "tom program error: 0XaB!")
  = Some (<[0%nat := py "Program p:q fa" ++ [0x130] ++ py "led: cu" ++ [0x17F]
                     ++ py "tom program error: 0XaB"]>
           (<[2%nat := py "0XaB"]> (<[1%nat := py "p:q"]> ∅))).
Proof. vm_compute. reflexivity. Qed.

Example search_needs_hex_digit :
  search _ERROR_PATTERN (py "Program abc failed: custom program error: 0x") = None.
Proof. vm_compute. reflexivity. Qed.

Example demo_failed :
  analyze_transaction (demo_world demo_env) {| signature := py "  failed " |}
  = Return (response_error_found (py "ABC123") (py "Demo Program") (py "0x1")
              (py "Unauthorized") (py "Signer mismatch")).
Proof. vm_compute. reflexivity. Qed.

(** Outside the specified shape the helpers do raise: an entry without a
    name, and an entry that is not an object. *)
Example program_name_malformed_entry :
  _program_name
    (demo_world_with (dict [(py "ABC123", dict [(py "errors", dict [])])]) demo_env)
    (py "ABC123")
  = Raise (KeyError (py "name"))
  /\ _lookup_error
       (demo_world_with (dict [(py "ABC123", PyStr (py "oops"))]) demo_env)
       (py "ABC123") (py "0x1")
     = Raise AttributeError.
Proof. split; vm_compute; reflexivity. Qed.

(** ** Strings *)

Lemma lstrip_fixed (s : pystr) : lstrip (lstrip s) = lstrip s.
Proof.
  induction s as [|c s IH]; simpl; [reflexivity|].
  destruct (Py_UNICODE_ISSPACE c) eqn:Hc; [exact IH|].
  simpl. now rewrite Hc.
Qed.

Lemma rstrip_snoc (s : pystr) (c : N) :
  rstrip (s ++ [c]) = if Py_UNICODE_ISSPACE c then rstrip s else s ++ [c].
Proof.
  unfold rstrip. rewrite reverse_snoc. simpl.
  destruct (Py_UNICODE_ISSPACE c); [reflexivity|].
  now rewrite reverse_cons, reverse_involutive.
Qed.

Lemma rstrip_keeps_head (c : N) (t : pystr) :
  Py_UNICODE_ISSPACE c = false -> exists r, rstrip (c :: t) = c :: r.
Proof.
  intros Hc. induction t as [|d t IH] using rev_ind.
  - exists []. change [c] with ([] ++ [c]). rewrite rstrip_snoc, Hc. reflexivity.
  - change (c :: t ++ [d]) with ((c :: t) ++ [d]). rewrite rstrip_snoc.
    destruct (Py_UNICODE_ISSPACE d); [exact IH|]. eauto.
Qed.

Lemma lstrip_head (s : pystr) :
  lstrip s = [] \/ exists c t, lstrip s = c :: t /\ Py_UNICODE_ISSPACE c = false.
Proof.
  induction s as [|c s IH]; simpl; [now left|].
  destruct (Py_UNICODE_ISSPACE c) eqn:Hc; [exact IH|]. right. eauto.
Qed.

Lemma rstrip_fixed (s : pystr) : rstrip (rstrip s) = rstrip s.
Proof.
  unfold rstrip. now rewrite reverse_involutive, lstrip_fixed.
Qed.

Lemma strip_idempotent (s : pystr) : strip (strip s) = strip s.
Proof.
  unfold strip.
  assert (Hl : lstrip (rstrip (lstrip s)) = rstrip (lstrip s)).
  { destruct (lstrip_head s) as [-> | (c & t & -> & Hc)]; [reflexivity|].
    destruct (rstrip_keeps_head c t Hc) as [r ->]. simpl. now rewrite Hc. }
  rewrite Hl. apply rstrip_fixed.
Qed.

Lemma lstrip_spaces_app (pre s : pystr) :
  Forall (fun c => Py_UNICODE_ISSPACE c = true) pre ->
  lstrip (pre ++ s) = lstrip s.
Proof.
  induction 1 as [|c pre Hc _ IH]; simpl; [reflexivity|]. now rewrite Hc.
Qed.

Lemma lstrip_app_spaces (s suf : pystr) :
  Forall (fun c => Py_UNICODE_ISSPACE c = true) suf ->
  lstrip (s ++ suf) = match lstrip s with
                      | [] => []
                      | c :: t => (c :: t) ++ suf
                      end.
Proof.
  intros Hsuf. induction s as [|c s IH]; simpl.
  - rewrite <- (app_nil_r suf). now apply lstrip_spaces_app.
  - destruct (Py_UNICODE_ISSPACE c); [exact IH|reflexivity].
Qed.

Lemma rstrip_app_spaces (s suf : pystr) :
  Forall (fun c => Py_UNICODE_ISSPACE c = true) suf ->
  rstrip (s ++ suf) = rstrip s.
Proof.
  intros Hsuf. unfold rstrip. rewrite reverse_app.
  rewrite lstrip_spaces_app; [reflexivity|].
  now apply Forall_reverse.
Qed.

Lemma strip_padding (pre s suf : pystr) :
  Forall (fun c => Py_UNICODE_ISSPACE c = true) pre ->
  Forall (fun c => Py_UNICODE_ISSPACE c = true) suf ->
  strip (pre ++ s ++ suf) = strip s.
Proof.
  intros Hpre Hsuf. unfold strip.
  rewrite lstrip_spaces_app by exact Hpre.
  rewrite lstrip_app_spaces by exact Hsuf.
  destruct (lstrip s) as [|c t]; [reflexivity|].
  now apply rstrip_app_spaces.
Qed.

(** What [strip] takes away is whitespace, and what it leaves neither
    starts nor ends with whitespace. *)
Lemma lstrip_split (s : pystr) :
  exists pre,
    s = pre ++ lstrip s /\ Forall (fun c => Py_UNICODE_ISSPACE c = true) pre.
Proof.
  induction s as [|c s (pre & E & Hpre)]; simpl.
  - exists []. auto.
  - destruct (Py_UNICODE_ISSPACE c) eqn:Hc; [|exists []; auto].
    exists (c :: pre). split; [simpl; congruence|auto].
Qed.

Lemma rstrip_split (s : pystr) :
  exists suf,
    s = rstrip s ++ suf /\ Forall (fun c => Py_UNICODE_ISSPACE c = true) suf.
Proof.
  destruct (lstrip_split (reverse s)) as (pre & E & Hpre).
  exists (reverse pre). split; [|now apply Forall_reverse].
  unfold rstrip. rewrite <- reverse_app, <- E. now rewrite reverse_involutive.
Qed.

Lemma strip_split (s : pystr) :
  exists pre suf,
    s = pre ++ strip s ++ suf
    /\ Forall (fun c => Py_UNICODE_ISSPACE c = true) pre
    /\ Forall (fun c => Py_UNICODE_ISSPACE c = true) suf.
Proof.
  destruct (lstrip_split s) as (pre & E1 & Hpre).
  destruct (rstrip_split (lstrip s)) as (suf & E2 & Hsuf).
  exists pre, suf. unfold strip. rewrite <- E2. auto.
Qed.

Lemma strip_no_leading_space (s : pystr) c t :
  strip s = c :: t -> Py_UNICODE_ISSPACE c = false.
Proof.
  unfold strip.
  destruct (lstrip_head s) as [-> | (c0 & t0 & -> & Hc0)]; [discriminate|].
  destruct (rstrip_keeps_head c0 t0 Hc0) as [r ->]. now intros [= <- _].
Qed.

Lemma strip_no_trailing_space (s : pystr) t c :
  strip s = t ++ [c] -> Py_UNICODE_ISSPACE c = false.
Proof.
  unfold strip, rstrip. intros H.
  apply (f_equal reverse) in H.
  rewrite reverse_involutive, reverse_snoc in H.
  destruct (lstrip_head (reverse (lstrip s))) as [E | (c0 & t0 & E & Hc0)];
    rewrite E in H; [discriminate|].
  now injection H as -> _.
Qed.

Lemma ascii_lower_idempotent (c : N) : ascii_lower (ascii_lower c) = ascii_lower c.
Proof.
  unfold ascii_lower.
  destruct ((0x41 <=? c) && (c <=? 0x5A)) eqn:H; [|now rewrite H].
  apply andb_prop in H as [H1 H2].
  apply N.leb_le in H1. apply N.leb_le in H2.
  replace (c + 32 <=? 0x5A) with false by (symmetry; apply N.leb_gt; lia).
  now rewrite andb_false_r.
Qed.

Lemma ascii_lower_keeps_ascii (c : N) :
  (c <? 128) = true -> (ascii_lower c <? 128) = true.
Proof.
  unfold ascii_lower. intros H.
  destruct ((0x41 <=? c) && (c <=? 0x5A)) eqn:E; [|exact H].
  apply andb_prop in E as [_ E]. apply N.leb_le in E. apply N.ltb_lt. lia.
Qed.

Lemma lower_ascii (ul : pystr -> pystr) (s : pystr) :
  isascii s = true -> lower ul s = ascii_lower <$> s.
Proof. unfold lower. now intros ->. Qed.

Lemma isascii_lowered (s : pystr) :
  isascii s = true -> isascii (ascii_lower <$> s) = true.
Proof.
  unfold isascii. rewrite !forallb_forall. intros H c Hc.
  apply in_map_iff in Hc as (c0 & <- & Hc0).
  apply ascii_lower_keeps_ascii. now apply H.
Qed.

Lemma lower_idempotent_ascii (ul : pystr -> pystr) (s : pystr) :
  isascii s = true -> lower ul (lower ul s) = lower ul s.
Proof.
  intros H. rewrite (lower_ascii ul s H).
  rewrite lower_ascii by now apply isascii_lowered.
  rewrite <- list_fmap_compose. apply list_fmap_ext.
  intros i c _. apply ascii_lower_idempotent.
Qed.

(** ** The matcher against the declarative reading *)

Section MatcherTheory.
Context {R : Type}.
Implicit Types (k : pystr -> groups -> option R).

Lemma repeat_greedy_sound p s (k : pystr -> option R) res :
  repeat_greedy p s k = Some res ->
  exists s1 s2,
    s = s1 ++ s2 /\ Forall (fun c => p c = true) s1 /\ k s2 = Some res.
Proof.
  revert res. induction s as [|c s IH]; simpl; intros res H.
  - exists [], []. auto.
  - destruct (p c) eqn:Hc; [|exists [], (c :: s); auto].
    destruct (repeat_greedy p s k) as [r0|] eqn:E;
      [|exists [], (c :: s); auto].
    injection H as ->.
    destruct (IH res eq_refl) as (s1 & s2 & -> & H1 & H2).
    exists (c :: s1), s2. auto.
Qed.

Lemma repeat_greedy_base p s (k : pystr -> option R) :
  is_Some (k s) -> is_Some (repeat_greedy p s k).
Proof.
  intros Hk. destruct s as [|c s]; simpl; [exact Hk|].
  destruct (p c); [|exact Hk].
  destruct (repeat_greedy p s k); [eauto|exact Hk].
Qed.

Lemma repeat_greedy_complete p s1 s2 (k : pystr -> option R) :
  Forall (fun c => p c = true) s1 ->
  is_Some (k s2) ->
  is_Some (repeat_greedy p (s1 ++ s2) k).
Proof.
  intros H Hk. induction H as [|c s1 Hc _ IH]; simpl.
  - now apply repeat_greedy_base.
  - rewrite Hc. destruct IH as [r ->]. eauto.
Qed.

Lemma take_matched (s1 s2 : pystr) :
  take (length (s1 ++ s2) - length s2) (s1 ++ s2) = s1.
Proof.
  rewrite length_app, Nat.add_sub. apply take_app_length.
Qed.

Lemma sre_match_sound ic r : forall s g k res,
  sre_match ic r s g k = Some res ->
  exists s1 s2 g',
    s = s1 ++ s2 /\ matches ic r s1 g g' /\ k s2 g' = Some res.
Proof.
  induction r as [a|a|r1 IH1 r2 IH2|n r IH]; simpl; intros s g k res H.
  - destruct s as [|c s]; [discriminate|].
    destruct (atom_match ic a c) eqn:Hc; [|discriminate].
    exists [c], s, g. split; [reflexivity|]. split; [now constructor|exact H].
  - destruct s as [|c s]; [discriminate|].
    destruct (atom_match ic a c) eqn:Hc; [|discriminate].
    apply repeat_greedy_sound in H as (s1 & s2 & -> & Hs1 & Hk).
    exists (c :: s1), s2, g. split; [reflexivity|]. split; [|exact Hk].
    constructor; [discriminate|]. now constructor.
  - apply IH1 in H as (s1 & s2 & g1 & -> & M1 & H).
    apply IH2 in H as (s3 & s4 & g2 & -> & M2 & H).
    exists (s1 ++ s3), s4, g2. rewrite app_assoc.
    split; [reflexivity|]. split; [|exact H].
    eapply matches_seq; eassumption.
  - apply IH in H as (s1 & s2 & g' & -> & M & H).
    rewrite take_matched in H.
    exists s1, s2, (<[n := s1]> g').
    split; [reflexivity|]. split; [now constructor|exact H].
Qed.

Lemma sre_match_complete ic r s1 g g' :
  matches ic r s1 g g' ->
  forall s2 k, is_Some (k s2 g') -> is_Some (sre_match ic r (s1 ++ s2) g k).
Proof.
  induction 1 as [a c g Hc|a s g Hne Hall|r1 r2 s1 s2 g g1 g2 _ IH1 _ IH2
                 |n r s g g' _ IH]; intros s3 k Hk; simpl.
  - now rewrite Hc.
  - destruct s as [|c s]; [congruence|]. simpl.
    apply Forall_cons in Hall as [Hc Hall]. rewrite Hc.
    now apply repeat_greedy_complete.
  - rewrite <- app_assoc. apply IH1. now apply IH2.
  - apply IH. now rewrite take_matched.
Qed.
End MatcherTheory.

Lemma search_from_unfold ic r s :
  search_from ic r s =
  match sre_match ic r s ∅
          (fun rest g => Some (<[0%nat := take (length s - length rest) s]> g)) with
  | Some m => Some m
  | None =>
      match s with
      | _ :: s' => search_from ic r s'
      | [] => None
      end
  end.
Proof. destruct s; reflexivity. Qed.

Lemma search_from_sound ic r s m :
  search_from ic r s = Some m ->
  exists pre mid suf g',
    s = pre ++ mid ++ suf /\ matches ic r mid ∅ g' /\ m = <[0%nat := mid]> g'.
Proof.
  induction s as [|c s IH]; rewrite search_from_unfold;
    destruct (sre_match ic r _ ∅ _) as [m0|] eqn:E; try discriminate.
  - intros [= ->].
    apply sre_match_sound in E as (s1 & s2 & g' & Hs & M & [= <-]).
    symmetry in Hs. apply app_eq_nil in Hs as [-> ->].
    exists [], [], [], g'. auto.
  - intros [= ->].
    apply sre_match_sound in E as (s1 & s2 & g' & Hs & M & Hk).
    rewrite Hs, take_matched in Hk. injection Hk as <-.
    exists [], s1, s2, g'. auto.
  - intros H. destruct (IH H) as (pre & mid & suf & g' & -> & M & ->).
    exists (c :: pre), mid, suf, g'. auto.
Qed.

Lemma search_from_complete ic r pre mid suf g' :
  matches ic r mid ∅ g' ->
  is_Some (search_from ic r (pre ++ mid ++ suf)).
Proof.
  intros M. induction pre as [|c pre IH]; rewrite search_from_unfold.
  - assert (H : is_Some (sre_match ic r (mid ++ suf) ∅
      (fun rest g => Some (<[0%nat := take (length (mid ++ suf) - length rest)
                                          (mid ++ suf)]> g)))).
    { eapply sre_match_complete; [exact M|]. eauto. }
    simpl. destruct H as [m ->]. eauto.
  - destruct (sre_match ic r _ ∅ _); [eauto|exact IH].
Qed.

(** ** Characters under IGNORECASE *)

(** Boolean comparisons of code points, read as linear arithmetic. *)
Ltac split_ifs :=
  repeat match goal with
    | |- context [if ?b then _ else _] => destruct b eqn:?
    | H : context [if ?b then _ else _] |- _ => destruct b eqn:?
    end.

Ltac codes_to_prop :=
  rewrite ?orb_true_iff, ?andb_true_iff, ?orb_false_iff, ?andb_false_iff,
    ?negb_true_iff, ?negb_false_iff, ?N.leb_le, ?N.leb_gt, ?N.eqb_eq,
    ?N.eqb_neq, ?N.ltb_lt, ?N.ltb_ge in *.

Ltac compare_codes :=
  split_ifs; simpl in *;
  try match goal with |- @eq bool _ _ => apply Bool.eq_iff_eq_true end;
  codes_to_prop; try lia.

Lemma literal_ignorecase (ch c : N) :
  atom_match true (LITERAL ch) c = true <-> ch ∈ case_variants c.
Proof.
  simpl. rewrite existsb_exists, list_elem_of_In. split.
  - intros (v & Hv & E). apply N.eqb_eq in E. now subst.
  - intros H. exists ch. split; [exact H|apply N.eqb_refl].
Qed.

Lemma hex_ignorecase (c : N) : atom_match true (IN hex_ranges) c = hex_digit c.
Proof.
  unfold atom_match, atom_plain, hex_digit, in_ranges, hex_ranges, case_variants.
  compare_codes.
Qed.

Lemma variant_of_zero (c : N) : 0x30 ∈ case_variants c <-> c = 0x30.
Proof.
  rewrite <- literal_ignorecase. unfold atom_match, atom_plain, case_variants.
  compare_codes.
Qed.

Lemma variant_of_x (c : N) : 0x78 ∈ case_variants c <-> c = 0x78 \/ c = 0x58.
Proof.
  rewrite <- literal_ignorecase. unfold atom_match, atom_plain, case_variants.
  compare_codes.
Qed.

Lemma hex_digit_ascii (c : N) : hex_digit c = true -> (c <? 128) = true.
Proof.
  unfold hex_digit, in_ranges, hex_ranges. simpl. compare_codes.
Qed.

Lemma hex_digit_lowered (c : N) :
  hex_digit c = true -> lower_hex_digit (ascii_lower c) = true.
Proof.
  unfold hex_digit, lower_hex_digit, in_ranges, hex_ranges, ascii_lower.
  intros H. compare_codes.
Qed.

(** ** What [_ERROR_PATTERN] matches *)

Lemma matches_atom_inv ic a s g g' :
  matches ic (ATOM a) s g g' ->
  exists c, s = [c] /\ g' = g /\ atom_match ic a c = true.
Proof. inversion 1; subst. eauto. Qed.

Lemma matches_repeat_inv ic a s g g' :
  matches ic (MAX_REPEAT a) s g g' ->
  g' = g /\ s <> [] /\ Forall (fun c => atom_match ic a c = true) s.
Proof. inversion 1; subst. auto. Qed.

Lemma matches_seq_inv ic r1 r2 s g g' :
  matches ic (SEQ r1 r2) s g g' ->
  exists s1 s2 g1,
    s = s1 ++ s2 /\ matches ic r1 s1 g g1 /\ matches ic r2 s2 g1 g'.
Proof. inversion 1; subst. eauto 7. Qed.

Lemma matches_group_inv ic n r s g g' :
  matches ic (SUBPATTERN n r) s g g' ->
  exists g1, matches ic r s g g1 /\ g' = <[n := s]> g1.
Proof. inversion 1; subst. eauto. Qed.

Lemma matches_literals_inv ic w tail s g g' :
  matches ic (literals w tail) s g g' ->
  exists w' s',
    s = w' ++ s'
    /\ Forall2 (fun ch c => atom_match ic (LITERAL ch) c = true) w w'
    /\ matches ic tail s' g g'.
Proof.
  revert s g. induction w as [|ch w IH]; simpl; intros s g H.
  - exists [], s. auto.
  - apply matches_seq_inv in H as (s1 & s2 & g1 & -> & M1 & M2).
    apply matches_atom_inv in M1 as (c & -> & -> & Hc).
    apply IH in M2 as (w' & s' & -> & Hw & M).
    exists (c :: w'), s'. split; [reflexivity|]. auto.
Qed.

Lemma matches_literals_intro ic w w' tail s g g' :
  Forall2 (fun ch c => atom_match ic (LITERAL ch) c = true) w w' ->
  matches ic tail s g g' ->
  matches ic (literals w tail) (w' ++ s) g g'.
Proof.
  intros Hw M. induction Hw as [|ch c w w' Hc _ IH]; simpl; [exact M|].
  apply (matches_seq ic _ _ [c] (w' ++ s) g g g'); [now constructor|exact IH].
Qed.

Lemma literals_ignorecase (w w' : pystr) :
  Forall2 (fun ch c => atom_match true (LITERAL ch) c = true) w w'
  <-> same_ignoring_case w w'.
Proof.
  unfold same_ignoring_case.
  split; intros H; (eapply Forall2_impl; [exact H|]); intros ch c;
    apply literal_ignorecase.
Qed.

Lemma same_0x (X : pystr) :
  same_ignoring_case (py "0x") X
  <-> exists x, X = [0x30; x] /\ (x = 0x78 \/ x = 0x58).
Proof.
  unfold same_ignoring_case. split.
  - intros H.
    apply Forall2_cons_inv_l in H as (z & X1 & Hz & H & ->).
    apply Forall2_cons_inv_l in H as (x & X2 & Hx & H & ->).
    apply Forall2_nil_inv_l in H as ->.
    apply variant_of_zero in Hz as ->. apply variant_of_x in Hx. eauto.
  - intros (x & -> & Hx).
    constructor; [now apply variant_of_zero|].
    constructor; [now apply variant_of_x|constructor].
Qed.

Lemma error_pattern_matches t g' :
  matches true (re_code _ERROR_PATTERN) t ∅ g'
  <-> exists program_id code,
        custom_error_text t program_id code
        /\ g' = <[2%nat := code]> (<[1%nat := program_id]> ∅).
Proof.
  unfold _ERROR_PATTERN. cbn [re_code]. split.
  - intros H.
    apply matches_literals_inv in H as (P & s1 & -> & HP & H).
    apply matches_seq_inv in H as (pid & s2 & g1 & -> & M1 & M2).
    apply matches_group_inv in M1 as (g0 & M & ->).
    apply matches_repeat_inv in M as (-> & Hne & Hall).
    apply matches_literals_inv in M2 as (F & code & -> & HF & M2).
    apply matches_group_inv in M2 as (g2 & M & ->).
    apply matches_literals_inv in M as (X & hex & -> & HX & M).
    apply matches_repeat_inv in M as (-> & Hne' & Hall').
    apply literals_ignorecase in HP, HF, HX.
    apply same_0x in HX as (x & -> & Hx).
    exists pid, ([0x30; x] ++ hex). split; [|reflexivity].
    exists P, F. repeat split; auto.
    + eapply Forall_impl; [exact Hall|]. simpl. intros c Hc.
      now apply negb_true_iff.
    + exists x, hex. repeat split; auto.
      eapply Forall_impl; [exact Hall'|]. intros c Hc.
      now rewrite <- hex_ignorecase.
  - intros (pid & code & (P & F & -> & HP & [Hne Hall] & HF & Hcode) & ->).
    destruct Hcode as (x & hex & -> & Hx & Hne' & Hall').
    apply matches_literals_intro; [now apply literals_ignorecase|].
    eapply matches_seq.
    + apply matches_group. apply matches_repeat; [exact Hne|].
      eapply Forall_impl; [exact Hall|]. simpl. intros c Hc.
      now apply negb_true_iff.
    + apply matches_literals_intro; [now apply literals_ignorecase|].
      apply matches_group.
      apply (matches_literals_intro true (py "0x") [0x30; x]).
      * apply literals_ignorecase, same_0x. eauto.
      * apply matches_repeat; [exact Hne'|].
        eapply Forall_impl; [exact Hall'|]. intros c Hc.
        now rewrite hex_ignorecase.
Qed.

Lemma search_error_pattern_sound line m :
  search _ERROR_PATTERN line = Some m ->
  exists pre t suf program_id code,
    line = pre ++ t ++ suf
    /\ custom_error_text t program_id code
    /\ m = <[0%nat := t]> (<[2%nat := code]> (<[1%nat := program_id]> ∅)).
Proof.
  intros H. apply search_from_sound in H as (pre & t & suf & g' & -> & M & ->).
  apply error_pattern_matches in M as (pid & code & Ht & ->).
  exists pre, t, suf, pid, code. auto.
Qed.

Lemma search_error_pattern_complete pre t suf program_id code :
  custom_error_text t program_id code ->
  is_Some (search _ERROR_PATTERN (pre ++ t ++ suf)).
Proof.
  intros Ht. eapply search_from_complete.
  apply error_pattern_matches. eauto.
Qed.

(** Every match captures both groups: a token and a hexadecimal literal. *)
Lemma search_error_pattern_groups line m :
  search _ERROR_PATTERN line = Some m ->
  exists program_id code,
    m !! 1%nat = Some program_id /\ m !! 2%nat = Some code
    /\ nonspace_token program_id /\ hex_literal code.
Proof.
  intros H.
  apply search_error_pattern_sound in H
    as (pre & t & suf & pid & code & _ & (P & F & _ & _ & Hpid & _ & Hcode) & ->).
  exists pid, code. split; [|split; [|split; assumption]].
  - rewrite lookup_insert_ne, lookup_insert_ne, lookup_insert_eq; done.
  - rewrite lookup_insert_ne, lookup_insert_eq; done.
Qed.

(** ** Hexadecimal literals and [lower] *)

Lemma hex_literal_ascii (code : pystr) : hex_literal code -> isascii code = true.
Proof.
  intros (x & hex & -> & Hx & _ & Hall). unfold isascii. simpl.
  replace (x <? 128) with true by (destruct Hx; subst; reflexivity).
  simpl. apply forallb_forall. intros c Hc.
  apply hex_digit_ascii. rewrite Forall_forall in Hall.
  apply Hall. now apply list_elem_of_In.
Qed.

Lemma hex_literal_lowered (code : pystr) :
  hex_literal code ->
  exists hex,
    ascii_lower <$> code = py "0x" ++ hex
    /\ hex <> [] /\ Forall (fun c => lower_hex_digit c = true) hex.
Proof.
  intros (x & hex & -> & Hx & Hne & Hall).
  exists (ascii_lower <$> hex). split; [|split].
  - destruct Hx; subst; reflexivity.
  - destruct hex; [congruence|discriminate].
  - apply Forall_fmap. eapply Forall_impl; [exact Hall|].
    intros c Hc. now apply hex_digit_lowered.
Qed.

Lemma lower_hex_literal (ul : pystr -> pystr) (code : pystr) :
  hex_literal code -> lower ul code = ascii_lower <$> code.
Proof. intros H. apply lower_ascii. now apply hex_literal_ascii. Qed.

(** ** The scan of the log lines *)

Lemma scan_logs_none (W : World) (logs : list pystr) :
  Forall (fun l => search _ERROR_PATTERN l = None) logs ->
  scan_logs W logs = Return None.
Proof.
  induction 1 as [|l logs Hl _ IH]; simpl; [reflexivity|]. now rewrite Hl.
Qed.

Lemma scan_logs_skip (W : World) (pre rest : list pystr) :
  Forall (fun l => search _ERROR_PATTERN l = None) pre ->
  scan_logs W (pre ++ rest) = scan_logs W rest.
Proof.
  induction 1 as [|l pre Hl _ IH]; simpl; [reflexivity|]. now rewrite Hl.
Qed.

Lemma scan_logs_first (W : World) (logs : list pystr) line m :
  first_match logs line m ->
  exists program_id code,
    m !! 1%nat = Some program_id /\ m !! 2%nat = Some code
    /\ nonspace_token program_id /\ hex_literal code
    /\ scan_logs W logs
       = Return (Some (program_id, ascii_lower <$> code, line)).
Proof.
  intros (pre & suf & -> & Hpre & Hm).
  destruct (search_error_pattern_groups line m Hm)
    as (pid & code & H1 & H2 & Hpid & Hcode).
  exists pid, code. repeat (split; [assumption|]).
  rewrite scan_logs_skip by exact Hpre. simpl. rewrite Hm.
  unfold group. rewrite H1, H2. simpl.
  now rewrite lower_hex_literal.
Qed.

(** The scan never raises, and what it finds does not depend on the
    Unicode tables. *)
Lemma scan_logs_cases (W : World) (logs : list pystr) :
  (Forall (fun l => search _ERROR_PATTERN l = None) logs
   /\ scan_logs W logs = Return None)
  \/ (exists line m program_id code,
        first_match logs line m
        /\ m !! 1%nat = Some program_id /\ m !! 2%nat = Some code
        /\ hex_literal code
        /\ scan_logs W logs
           = Return (Some (program_id, ascii_lower <$> code, line))).
Proof.
  induction logs as [|l logs IH].
  - left. split; [constructor|reflexivity].
  - destruct (search _ERROR_PATTERN l) as [m|] eqn:Hm.
    + right.
      assert (F : first_match (l :: logs) l m).
      { exists [], logs. split; [reflexivity|]. split; [constructor|exact Hm]. }
      destruct (scan_logs_first W _ _ _ F) as (pid & code & ? & ? & ? & ? & ?).
      exists l, m, pid, code. auto.
    + destruct IH as [[Hall Hs]|(line & m & pid & code & F & H1 & H2 & Hc & Hs)].
      * left. split; [now constructor|]. simpl. now rewrite Hm.
      * right. exists line, m, pid, code.
        destruct F as (pre & suf & -> & Hpre & Hline).
        split; [exists (l :: pre), suf; split; [reflexivity|];
                split; [now constructor|exact Hline]|].
        repeat (split; [assumption|]). simpl. now rewrite Hm.
Qed.

(** ** The catalogue helpers on a catalogue of the specified shape *)

Lemma dict_get_dict (m : gmap pystr pyval) (k : pystr) (dflt : pyval) :
  dict_get (PyDict m) k dflt = Return (default dflt (m !! k)).
Proof. reflexivity. Qed.

Lemma bind_return {A B} (a : A) (f : A -> result B) : Return a ≫= f = f a.
Proof. reflexivity. Qed.

Lemma truthy_insert (k : pystr) (v : pyval) (d : gmap pystr pyval) :
  truthy (PyDict (<[k := v]> d)) = true.
Proof.
  simpl. apply negb_true_iff, Nat.eqb_neq, map_size_non_empty_iff.
  apply insert_non_empty.
Qed.

Lemma truthy_program (p : ProgramEntry) : truthy (json_of_program p) = true.
Proof. apply truthy_insert. Qed.

Lemma truthy_error (e : ErrorEntry) : truthy (json_of_error e) = true.
Proof. apply truthy_insert. Qed.

Lemma program_get_errors (p : ProgramEntry) (dflt : pyval) :
  dict_get (json_of_program p) (py "errors") dflt
  = Return (PyDict (json_of_error <$> program_errors p)).
Proof.
  unfold json_of_program, dict, dict_get. simpl list_to_map.
  rewrite lookup_insert_ne by discriminate.
  now rewrite lookup_insert_eq.
Qed.

Lemma program_getitem_name (p : ProgramEntry) :
  getitem (json_of_program p) (py "name") = Return (PyStr (program_name p)).
Proof.
  unfold json_of_program, dict, getitem. simpl list_to_map.
  now rewrite lookup_insert_eq.
Qed.

Lemma error_getitem_name (e : ErrorEntry) :
  getitem (json_of_error e) (py "name") = Return (PyStr (error_name e)).
Proof.
  unfold json_of_error, dict, getitem. simpl list_to_map.
  now rewrite lookup_insert_eq.
Qed.

Lemma error_getitem_message (e : ErrorEntry) :
  getitem (json_of_error e) (py "message") = Return (PyStr (error_message e)).
Proof.
  unfold json_of_error, dict, getitem. simpl list_to_map.
  rewrite lookup_insert_ne by discriminate.
  now rewrite lookup_insert_eq.
Qed.

Lemma lookup_error_catalog (W : World) C program_id error_code :
  ERROR_DB W = json_of_catalog C ->
  _lookup_error W program_id error_code
  = Return (from_option json_of_error PyNone
              (catalog_entry C program_id (lower (unicode_lower W) error_code))).
Proof.
  intros HDB. unfold _lookup_error, catalog_entry. rewrite HDB.
  unfold json_of_catalog. rewrite dict_get_dict, lookup_fmap, bind_return.
  destruct (C !! program_id) as [p|]; [|reflexivity].
  cbn [fmap option_fmap option_map from_option id mbind option_bind].
  rewrite truthy_program. cbn [negb].
  rewrite program_get_errors, bind_return, dict_get_dict, lookup_fmap.
  now destruct (program_errors p !! _).
Qed.

Lemma program_name_catalog (W : World) C program_id :
  ERROR_DB W = json_of_catalog C ->
  _program_name W program_id
  = Return (PyStr (from_option program_name program_id (C !! program_id))).
Proof.
  intros HDB. unfold _program_name. rewrite HDB.
  unfold json_of_catalog. rewrite dict_get_dict, lookup_fmap, bind_return.
  destruct (C !! program_id) as [p|]; [|reflexivity].
  cbn [fmap option_fmap option_map from_option id].
  rewrite truthy_program. apply program_getitem_name.
Qed.

(** ** The handler *)

Lemma analyze_fetched (W : World) body meta :
  fetched W body meta -> analyze_transaction W body = classify W meta.
Proof.
  intros (url & Henv & Hne & Hf). unfold analyze_transaction.
  rewrite Henv. destruct url as [|c url]; [congruence|]. now rewrite Hf.
Qed.

Lemma classify_succeeded (W : World) meta :
  err meta = None -> classify W meta = Return response_success.
Proof. unfold classify. now intros ->. Qed.

Lemma classify_unparsed (W : World) meta e :
  err meta = Some e ->
  Forall (fun l => search _ERROR_PATTERN l = None) (or_empty (log_messages meta)) ->
  classify W meta = Return (response_error_unparsed (or_empty (log_messages meta))).
Proof.
  intros He Hall. unfold classify. rewrite He.
  cbn zeta. now rewrite scan_logs_none.
Qed.

(** After a match, the answer is decided by the catalogue alone. *)
Lemma classify_matched (W : World) C meta e line m program_id code :
  ERROR_DB W = json_of_catalog C ->
  err meta = Some e ->
  first_match (or_empty (log_messages meta)) line m ->
  m !! 1%nat = Some program_id -> m !! 2%nat = Some code ->
  classify W meta =
  Return
    match catalog_entry C program_id (ascii_lower <$> code) with
    | Some entry =>
        response_error_found program_id (display_name C program_id)
          (ascii_lower <$> code) (error_name entry) (error_message entry)
    | None =>
        response_error_unknown program_id (display_name C program_id)
          (ascii_lower <$> code) line
    end.
Proof.
  intros HDB He Hfirst H1 H2.
  destruct (scan_logs_first W _ _ _ Hfirst)
    as (pid & code' & H1' & H2' & _ & Hcode & Hscan).
  rewrite H1 in H1'. rewrite H2 in H2'.
  injection H1' as <-. injection H2' as <-.
  unfold classify. rewrite He. cbn zeta. rewrite Hscan, bind_return.
  rewrite (lookup_error_catalog W C) by exact HDB.
  rewrite bind_return.
  rewrite <- (lower_hex_literal (unicode_lower W) code Hcode).
  rewrite lower_idempotent_ascii by now apply hex_literal_ascii.
  rewrite (program_name_catalog W C) by exact HDB.
  destruct (catalog_entry C program_id _) as [entry|];
    cbn [from_option]; [rewrite truthy_error|cbn [truthy]]; [|reflexivity].
  rewrite bind_return, error_getitem_name, bind_return.
  now rewrite error_getitem_message.
Qed.

(** * The claims *)

(** C1.  For a fetched record of a failed transaction whose log lines
    contain a line the pattern is found in, and whose extracted
    (program_id, error_code) pair has an entry in the catalogue, the
    handler answers [error_found] carrying exactly the program_id, the
    program's display name, the lower-cased error_code and the entry's name
    and message. *)
Theorem classify_error_found
    (W : World) C body meta e line m program_id code entry :
  ERROR_DB W = json_of_catalog C ->
  fetched W body meta ->
  err meta = Some e ->
  first_match (or_empty (log_messages meta)) line m ->
  m !! 1%nat = Some program_id ->
  m !! 2%nat = Some code ->
  catalog_entry C program_id (ascii_lower <$> code) = Some entry ->
  analyze_transaction W body
  = Return (response_error_found program_id (display_name C program_id)
              (ascii_lower <$> code) (error_name entry) (error_message entry)).
Proof.
  intros HDB Hf He Hfirst H1 H2 Hentry.
  rewrite (analyze_fetched W body meta Hf).
  rewrite (classify_matched W C meta e line m program_id code) by assumption.
  now rewrite Hentry.
Qed.

Lemma classify_error_found_witness :
  analyze_transaction (demo_world demo_env) {| signature := py "failed" |}
  = Return (response_error_found (py "ABC123")
              (display_name demo_catalog (py "ABC123"))
              (ascii_lower <$> py "0X1")
              (py "Unauthorized") (py "Signer mismatch")).
Proof.
  apply (classify_error_found (demo_world demo_env) demo_catalog
           {| signature := py "failed" |}
           {| err := Some tt; log_messages := Some demo_logs |} tt
           (py "Program ABC123 failed: custom program error: 0X1")
           (<[0%nat := py "Program ABC123 failed: custom program error: 0X1"]>
              (<[2%nat := py "0X1"]> (<[1%nat := py "ABC123"]> ∅)))
           (py "ABC123") (py "0X1")
           {| error_name := py "Unauthorized";
              error_message := py "Signer mismatch" |}).
  - reflexivity.
  - exists (py "http://localhost:8899").
    split; [vm_compute; reflexivity|]. split; [discriminate|].
    vm_compute. reflexivity.
  - reflexivity.
  - exists [py "Program ABC123 invoke [1]"],
      [py "Program DEF456 failed: custom program error: 0x2"].
    split; [reflexivity|]. split.
    + constructor; [vm_compute; reflexivity|constructor].
    + vm_compute. reflexivity.
  - vm_compute. reflexivity.
  - vm_compute. reflexivity.
  - vm_compute. reflexivity.
Defined.

(** C2, as the claim states it, fails: the three fetch states are raised,
    not returned.  A malformed signature, an unreachable node and an unknown
    signature each end the request with an [HTTPException]. *)
Lemma fetch_failures_are_raised :
  analyze_transaction (demo_world demo_env) {| signature := py "malformed" |}
  = Raise (HTTPException 400
             (py "Invalid transaction signature: invalid base58"))
  /\ analyze_transaction (demo_world demo_env) {| signature := py "timeout" |}
     = Raise (HTTPException 502
                (py "Failed to reach the Solana RPC node: timed out"))
  /\ analyze_transaction (demo_world demo_env) {| signature := py "unknown" |}
     = Raise (HTTPException 404 msg_not_found)
  /\ ~ (forall W body, exists v, analyze_transaction W body = Return v).
Proof.
  assert (H404 :
    analyze_transaction (demo_world demo_env) {| signature := py "unknown" |}
    = Raise (HTTPException 404 msg_not_found)) by (vm_compute; reflexivity).
  repeat split; try (vm_compute; reflexivity).
  intros H.
  destruct (H (demo_world demo_env) {| signature := py "unknown" |}) as [v Hv].
  rewrite H404 in Hv. discriminate.
Qed.

(** C2, amended.  With a catalogue of the specified shape the handler ends
    every request in exactly the way the fetch outcome dictates: the four
    domain outcomes are returned values; a missing endpoint, a malformed
    signature, an unreachable node and an absent transaction are raised as
    [HTTPException] with status 500, 400, 502 and 404; no other exception
    escapes. *)
Theorem analyze_total (W : World) C body :
  ERROR_DB W = json_of_catalog C ->
  match outcome W body with
  | EndpointNotConfigured =>
      analyze_transaction W body = Raise (HTTPException 500 msg_rpc_url_not_set)
  | FetchInvalid detail =>
      analyze_transaction W body
      = Raise (HTTPException 400 (py "Invalid transaction signature: " ++ detail))
  | FetchUnreachableNode detail =>
      analyze_transaction W body
      = Raise (HTTPException 502
                 (py "Failed to reach the Solana RPC node: " ++ detail))
  | Absent =>
      analyze_transaction W body = Raise (HTTPException 404 msg_not_found)
  | Record_ true _ =>
      analyze_transaction W body = Return response_success
  | Record_ false logs =>
      analyze_transaction W body = Return (response_error_unparsed logs)
      \/ (exists program_id error_code name message,
            analyze_transaction W body
            = Return (response_error_found program_id
                        (display_name C program_id) error_code name message))
      \/ (exists program_id error_code raw_log,
            analyze_transaction W body
            = Return (response_error_unknown program_id
                        (display_name C program_id) error_code raw_log))
  end.
Proof.
  intros HDB. unfold outcome, analyze_transaction.
  destruct (environ W !! py "SOLANA_RPC_URL") as [[|c url]|]; try reflexivity.
  destruct (fetch_transaction W (c :: url) body) as [exc|[meta|]];
    [destruct (is_ValueError exc); reflexivity| |reflexivity].
  destruct (err meta) as [e|] eqn:He.
  - rewrite bool_decide_eq_false_2 by discriminate.
    destruct (scan_logs_cases W (or_empty (log_messages meta)))
      as [[Hall _]|(line & m & pid & code & Hfirst & H1 & H2 & _ & _)].
    + left. now apply (classify_unparsed W meta e).
    + right.
      rewrite (classify_matched W C meta e line m pid code) by assumption.
      destruct (catalog_entry C pid _) as [entry|]; [left|right]; eauto 6.
  - rewrite bool_decide_eq_true_2 by reflexivity.
    now apply classify_succeeded.
Qed.

Lemma analyze_total_witness :
  analyze_transaction (demo_world demo_env) {| signature := py "failed-unknown" |}
  = Return (response_error_unparsed
              [py "Program DEF456 failed: custom program error: 0x2"])
  \/ (exists program_id error_code name message,
        analyze_transaction (demo_world demo_env)
          {| signature := py "failed-unknown" |}
        = Return (response_error_found program_id
                    (display_name demo_catalog program_id) error_code name message))
  \/ (exists program_id error_code raw_log,
        analyze_transaction (demo_world demo_env)
          {| signature := py "failed-unknown" |}
        = Return (response_error_unknown program_id
                    (display_name demo_catalog program_id) error_code raw_log)).
Proof.
  exact (analyze_total (demo_world demo_env) demo_catalog
           {| signature := py "failed-unknown" |} eq_refl).
Defined.

(** C3.  The scan of the log lines returns nothing when the pattern is
    found in no line; otherwise it returns the match of the first line, in
    document order, the pattern is found in: group 1 as the program_id, the
    line itself, and group 2 lower-cased as the error_code, which is [0x]
    followed by lower-case hexadecimal digits whatever the letter case of
    the line. *)
Theorem scan_logs_first_match (W : World) (logs : list pystr) :
  (Forall (fun l => search _ERROR_PATTERN l = None) logs ->
   scan_logs W logs = Return None)
  /\ (Exists (fun l => is_Some (search _ERROR_PATTERN l)) logs ->
      exists line m program_id code hex,
        first_match logs line m
        /\ m !! 1%nat = Some program_id /\ m !! 2%nat = Some code
        /\ ascii_lower <$> code = py "0x" ++ hex
        /\ Forall (fun c => lower_hex_digit c = true) hex
        /\ scan_logs W logs
           = Return (Some (program_id, ascii_lower <$> code, line))).
Proof.
  split; [apply scan_logs_none|].
  intros Hex.
  destruct (scan_logs_cases W logs)
    as [[Hall _]|(line & m & pid & code & Hfirst & H1 & H2 & Hcode & Hscan)].
  - exfalso. apply Exists_exists in Hex as (l & Hl & [m Hm]).
    rewrite Forall_forall in Hall. rewrite (Hall l Hl) in Hm. discriminate.
  - destruct (hex_literal_lowered code Hcode) as (hex & Hlow & _ & Hhex).
    exists line, m, pid, code, hex. auto 7.
Qed.

Lemma scan_logs_first_match_witness :
  scan_logs (demo_world demo_env) [py "Program ABC123 invoke [1]"] = Return None
  /\ exists line m program_id code hex,
       first_match demo_logs line m
       /\ m !! 1%nat = Some program_id /\ m !! 2%nat = Some code
       /\ ascii_lower <$> code = py "0x" ++ hex
       /\ Forall (fun c => lower_hex_digit c = true) hex
       /\ scan_logs (demo_world demo_env) demo_logs
          = Return (Some (program_id, ascii_lower <$> code, line)).
Proof.
  split.
  - apply (proj1 (scan_logs_first_match (demo_world demo_env)
                    [py "Program ABC123 invoke [1]"])).
    constructor; [vm_compute; reflexivity|constructor].
  - apply (proj2 (scan_logs_first_match (demo_world demo_env) demo_logs)).
    apply Exists_cons_tl, Exists_cons_hd.
    eexists. vm_compute. reflexivity.
Defined.

Example scan_logs_demo :
  scan_logs (demo_world demo_env) demo_logs
  = Return (Some (py "ABC123", py "0x1",
                  py "Program ABC123 failed: custom program error: 0X1")).
Proof. vm_compute. reflexivity. Qed.




(** C5, as the claim states it, fails in the "only if" direction: a line
    signals a custom program error although its words are in another case,
    or text precedes the form, or text follows it. *)
Lemma pattern_found_outside_stated_form :
  (is_Some (search _ERROR_PATTERN
              (py "program abc FAILED: Custom Program Error: 0x1"))
   /\ ~ spec_custom_error_line
          (py "program abc FAILED: Custom Program Error: 0x1"))
  /\ (is_Some (search _ERROR_PATTERN
                 (py "> Program abc failed: custom program error: 0x1"))
      /\ ~ spec_custom_error_line
             (py "> Program abc failed: custom program error: 0x1"))
  /\ (is_Some (search _ERROR_PATTERN
                 (py "Program abc failed: custom program error: 0x1."))
      /\ ~ spec_custom_error_line
             (py "Program abc failed: custom program error: 0x1.")).
Proof.
  split; [|split]; (split; [eexists; vm_compute; reflexivity|]).
  - intros (pid & code & H & _). discriminate H.
  - intros (pid & code & H & _). discriminate H.
  - intros (pid & code & H & _ & x & hex & -> & _ & Hne & Hall).
    destruct hex as [|d hex _] using rev_ind; [congruence|].
    apply Forall_app in Hall as [_ Hd]. apply Forall_cons in Hd as [Hd _].
    change (py "Program abc failed: custom program error: 0x1.")
      with (py "Program abc failed: custom program error: 0x1" ++ [0x2E]) in H.
    change (0x30 :: x :: hex ++ [d]) with ((0x30 :: x :: hex) ++ [d]) in H.
    rewrite !app_assoc in H. apply app_inj_tail in H as [_ <-].
    discriminate Hd.
Qed.

(** C5, amended.  A log line signals a custom program error exactly when it
    contains, anywhere, a text of the form
    [Program <program_id> failed: custom program error: <hex_code>], where
    the program_id is a non-empty run of non-whitespace characters, the
    hex_code is [0x] or [0X] followed by hexadecimal digits of either case,
    and the words of the form are read case-insensitively as well. *)
Theorem pattern_found_iff (line : pystr) :
  is_Some (search _ERROR_PATTERN line)
  <-> exists pre t suf program_id code,
        line = pre ++ t ++ suf /\ custom_error_text t program_id code.
Proof.
  split.
  - intros [m Hm].
    apply search_error_pattern_sound in Hm
      as (pre & t & suf & pid & code & -> & Ht & _).
    eauto 7.
  - intros (pre & t & suf & pid & code & -> & Ht).
    now apply (search_error_pattern_complete pre t suf pid code).
Qed.

(** C6.  On a catalogue of the specified shape the lookup returns [None]
    when the program is absent and when no code of that program equals the
    lower-cased error_code; the error_code is lower-cased before the
    comparison, so two spellings of one code that differ in letter case
    give the same result. *)
Theorem lookup_error_none_and_case (W : World) C program_id error_code :
  ERROR_DB W = json_of_catalog C ->
  (C !! program_id = None -> _lookup_error W program_id error_code = Return PyNone)
  /\ (forall p,
        C !! program_id = Some p ->
        program_errors p !! lower (unicode_lower W) error_code = None ->
        _lookup_error W program_id error_code = Return PyNone)
  /\ (forall error_code',
        same_code_ignoring_case error_code error_code' ->
        _lookup_error W program_id error_code'
        = _lookup_error W program_id error_code).
Proof.
  intros HDB. split; [|split].
  - intros Hp. rewrite (lookup_error_catalog W C) by exact HDB.
    unfold catalog_entry. now rewrite Hp.
  - intros p Hp Hc. rewrite (lookup_error_catalog W C) by exact HDB.
    unfold catalog_entry. rewrite Hp. cbn [mbind option_bind]. now rewrite Hc.
  - intros code' (Ha & Ha' & Hsame).
    rewrite !(lookup_error_catalog W C) by exact HDB.
    now rewrite !lower_ascii, Hsame by assumption.
Qed.

Lemma lookup_error_none_and_case_witness :
  _lookup_error (demo_world demo_env) (py "DEF456") (py "0x1") = Return PyNone
  /\ _lookup_error (demo_world demo_env) (py "ABC123") (py "0xFF") = Return PyNone
  /\ _lookup_error (demo_world demo_env) (py "ABC123") (py "0X1")
     = _lookup_error (demo_world demo_env) (py "ABC123") (py "0x1").
Proof.
  split; [|split].
  - apply (proj1 (lookup_error_none_and_case (demo_world demo_env) demo_catalog
                    (py "DEF456") (py "0x1") eq_refl)).
    vm_compute. reflexivity.
  - apply (proj1 (proj2 (lookup_error_none_and_case (demo_world demo_env)
                           demo_catalog (py "ABC123") (py "0xFF") eq_refl))
             {| program_name := py "Demo Program";
                program_errors :=
                  {[ py "0x1" := {| error_name := py "Unauthorized";
                                    error_message := py "Signer mismatch" |} ]} |});
      vm_compute; reflexivity.
  - apply (proj2 (proj2 (lookup_error_none_and_case (demo_world demo_env)
                           demo_catalog (py "ABC123") (py "0x1") eq_refl))).
    repeat split; vm_compute; reflexivity.
Defined.

(** C7.  On a catalogue of the specified shape [_program_name] raises for
    no program_id: it returns the catalogue's name of a program that is
    present, and the identifier itself, unchanged, for one that is not. *)
Theorem program_name_never_fails (W : World) C program_id :
  ERROR_DB W = json_of_catalog C ->
  _program_name W program_id
  = Return (PyStr match C !! program_id with
                  | Some p => program_name p
                  | None => program_id
                  end).
Proof.
  intros HDB. rewrite (program_name_catalog W C) by exact HDB.
  now destruct (C !! program_id).
Qed.

Lemma program_name_never_fails_witness :
  _program_name (demo_world demo_env) (py "ABC123")
  = Return (PyStr match demo_catalog !! py "ABC123" with
                  | Some p => program_name p
                  | None => py "ABC123"
                  end)
  /\ _program_name (demo_world demo_env) (py "nobody")
     = Return (PyStr match demo_catalog !! py "nobody" with
                     | Some p => program_name p
                     | None => py "nobody"
                     end).
Proof.
  split; apply program_name_never_fails; reflexivity.
Defined.

(** What the scan finds depends on the log lines only. *)
Lemma scan_logs_independent (W1 W2 : World) (logs : list pystr) :
  scan_logs W1 logs = scan_logs W2 logs.
Proof.
  destruct (scan_logs_cases W1 logs)
    as [[Hall ->]|(line & m & pid & code & Hfirst & H1 & H2 & _ & ->)].
  - symmetry. now apply scan_logs_none.
  - destruct (scan_logs_first W2 logs line m Hfirst)
      as (pid' & code' & H1' & H2' & _ & _ & ->).
    congruence.
Qed.

Lemma classify_independent (W1 W2 : World) meta1 meta2 :
  ERROR_DB W1 = ERROR_DB W2 ->
  bool_decide (err meta1 = None) = bool_decide (err meta2 = None) ->
  or_empty (log_messages meta1) = or_empty (log_messages meta2) ->
  classify W1 meta1 = classify W2 meta2.
Proof.
  intros HDB Herr Hlogs. unfold classify.
  destruct (err meta1) as [e1|], (err meta2) as [e2|];
    try reflexivity; try discriminate Herr.
  cbn zeta. rewrite Hlogs, (scan_logs_independent W1 W2).
  destruct (scan_logs_cases W2 (or_empty (log_messages meta2)))
    as [[_ ->]|(line & m & pid & code & _ & _ & _ & Hcode & ->)];
    [reflexivity|].
  rewrite !bind_return. unfold _lookup_error, _program_name.
  rewrite HDB.
  assert (Ha : isascii (ascii_lower <$> code) = true)
    by now apply isascii_lowered, hex_literal_ascii.
  now rewrite !(lower_ascii _ _ Ha).
Qed.

(** C8.  The answer is a function of the catalogue and of the pair (fetch
    outcome, log lines): two requests, in whatever surroundings, that meet
    the same catalogue and the same outcome end in the same state with the
    same payload, whatever else differs (the signature, the endpoint, the
    content of the transaction error, the Unicode tables). *)
Theorem classification_deterministic (W1 W2 : World) body1 body2 :
  ERROR_DB W1 = ERROR_DB W2 ->
  outcome W1 body1 = outcome W2 body2 ->
  analyze_transaction W1 body1 = analyze_transaction W2 body2.
Proof.
  intros HDB. unfold outcome, analyze_transaction.
  destruct (environ W1 !! py "SOLANA_RPC_URL") as [[|c1 url1]|],
           (environ W2 !! py "SOLANA_RPC_URL") as [[|c2 url2]|];
    try reflexivity;
    repeat match goal with
      | |- context [fetch_transaction ?W ?u ?b] =>
          destruct (fetch_transaction W u b) as [?exc|[?meta|]]
      | |- context [is_ValueError ?x] => destruct (is_ValueError x)
      end;
    try discriminate; try reflexivity.
  all: try (intros [= ->]; reflexivity).
  intros [= Herr Hlogs]. now apply classify_independent.
Qed.

Lemma classification_deterministic_witness :
  analyze_transaction (demo_world demo_env) {| signature := py "failed" |}
  = analyze_transaction
      (demo_world {[ py "SOLANA_RPC_URL" := py "https://api.devnet.solana.com" ]})
      {| signature := py " failed  " |}.
Proof.
  apply classification_deterministic; vm_compute; reflexivity.
Defined.

(** C9.  For a fetched record of a failed transaction whose log lines are
    absent ([None]), the handler takes the logs to be empty and answers
    [error_unparsed] with an empty [raw_logs] list. *)
Theorem classify_absent_logs (W : World) body meta e :
  fetched W body meta ->
  err meta = Some e ->
  log_messages meta = None ->
  analyze_transaction W body = Return (response_error_unparsed []).
Proof.
  intros Hf He Hlogs. rewrite (analyze_fetched W body meta Hf).
  rewrite (classify_unparsed W meta e He); rewrite Hlogs;
    [reflexivity|constructor].
Qed.

Lemma classify_absent_logs_witness :
  analyze_transaction (demo_world demo_env) {| signature := py "failed-nologs" |}
  = Return (response_error_unparsed []).
Proof.
  apply (classify_absent_logs (demo_world demo_env)
           {| signature := py "failed-nologs" |}
           {| err := Some tt; log_messages := None |} tt).
  - exists (py "http://localhost:8899").
    split; [vm_compute; reflexivity|]. split; [discriminate|].
    vm_compute. reflexivity.
  - reflexivity.
  - reflexivity.
Defined.

(** C10.  The handler strips leading and trailing whitespace from the
    signature before parsing it.  A signature gets the answer of its
    stripped form; the stripped form is the signature without a run of
    whitespace at its start and one at its end, and itself neither starts
    nor ends with whitespace; so two signatures that differ only in
    surrounding whitespace get the same answer. *)
Theorem analyze_strips_signature (W : World) (s : pystr) :
  analyze_transaction W {| signature := s |}
  = analyze_transaction W {| signature := strip s |}
  /\ (exists pre suf,
        s = pre ++ strip s ++ suf
        /\ Forall (fun c => Py_UNICODE_ISSPACE c = true) pre
        /\ Forall (fun c => Py_UNICODE_ISSPACE c = true) suf)
  /\ (forall c t, strip s = c :: t -> Py_UNICODE_ISSPACE c = false)
  /\ (forall t c, strip s = t ++ [c] -> Py_UNICODE_ISSPACE c = false)
  /\ (forall pre suf pre' suf',
        Forall (fun c => Py_UNICODE_ISSPACE c = true) pre ->
        Forall (fun c => Py_UNICODE_ISSPACE c = true) suf ->
        Forall (fun c => Py_UNICODE_ISSPACE c = true) pre' ->
        Forall (fun c => Py_UNICODE_ISSPACE c = true) suf' ->
        analyze_transaction W {| signature := pre ++ s ++ suf |}
        = analyze_transaction W {| signature := pre' ++ s ++ suf' |}).
Proof.
  split; [|split; [|split; [|split]]].
  - unfold analyze_transaction, fetch_transaction. cbn [signature].
    now rewrite strip_idempotent.
  - apply strip_split.
  - apply strip_no_leading_space.
  - apply strip_no_trailing_space.
  - intros pre suf pre' suf' Hpre Hsuf Hpre' Hsuf'.
    unfold analyze_transaction, fetch_transaction. cbn [signature].
    now rewrite !strip_padding by assumption.
Qed.

Lemma analyze_strips_signature_witness :
  strip ([0x0A; 0x20] ++ py "failed" ++ [0x20; 0x09]) = py "failed"
  /\ analyze_transaction (demo_world demo_env)
       {| signature := [0x0A; 0x20] ++ py "failed" ++ [0x20; 0x09] |}
     = analyze_transaction (demo_world demo_env) {| signature := py "failed" |}
  /\ analyze_transaction (demo_world demo_env)
       {| signature := [0x0A; 0x20] ++ py "failed" ++ [0x20; 0x09] |}
     = analyze_transaction (demo_world demo_env)
         {| signature := [0x3000] ++ py "failed" ++ [] |}.
Proof.
  split; [reflexivity|]. split.
  - exact (proj1 (analyze_strips_signature (demo_world demo_env)
                    ([0x0A; 0x20] ++ py "failed" ++ [0x20; 0x09]))).
  - apply (proj2 (proj2 (proj2 (proj2
             (analyze_strips_signature (demo_world demo_env) (py "failed"))))));
      repeat constructor.
Defined.

(** * Further properties of the code *)

(** ** The scan of the log lines *)

Lemma first_match_unique logs line1 m1 line2 m2 :
  first_match logs line1 m1 -> first_match logs line2 m2 ->
  line1 = line2 /\ m1 = m2.
Proof.
  intros (pre1 & suf1 & -> & Hpre1 & Hm1) (pre2 & suf2 & E & Hpre2 & Hm2).
  revert pre2 E Hpre2.
  induction Hpre1 as [|l pre1 Hl _ IH]; intros pre2 E Hpre2.
  - destruct pre2 as [|l2 pre2]; simpl in E.
    + injection E as -> _. split; congruence.
    + injection E as -> _. apply Forall_cons in Hpre2 as [Hl2 _]. congruence.
  - destruct pre2 as [|l2 pre2]; simpl in E.
    + injection E as <- _. congruence.
    + injection E as <- E. apply Forall_cons in Hpre2 as [_ Hpre2]. eauto.
Qed.

Lemma first_match_excludes_no_match logs line m :
  first_match logs line m -> no_match logs -> False.
Proof.
  intros (pre & suf & -> & _ & Hm) Hall.
  apply Forall_app in Hall as [_ Hall]. apply Forall_cons in Hall as [Hl _].
  congruence.
Qed.

Lemma first_match_in logs line m : first_match logs line m -> line ∈ logs.
Proof.
  intros (pre & suf & -> & _ & _). apply elem_of_app. right. apply elem_of_cons.
  now left.
Qed.

(** X1.  Scanning a concatenation of logs: the answer of the first part
    stands when it found something (or raised), and only when it found
    nothing is the second part looked at. *)
Theorem scan_logs_app (W : World) (logs1 logs2 : list pystr) :
  scan_logs W (logs1 ++ logs2)
  = match scan_logs W logs1 with
    | Return None => scan_logs W logs2
    | found => found
    end.
Proof.
  induction logs1 as [|l logs1 IH]; simpl; [reflexivity|].
  destruct (search _ERROR_PATTERN l) as [m|]; [|exact IH].
  destruct (group m 1) as [pid|e]; [|reflexivity].
  destruct (group m 2) as [code|e]; reflexivity.
Qed.

(** ** The states of the handler *)

(** X2.  A failed transaction whose first matching line names a program
    and a code the catalogue has no entry for is answered [error_unknown]:
    with the program_id, the program's display name, the lower-cased code,
    and as [raw_log] that one matching line, which is a line of the logs. *)
Theorem classify_error_unknown
    (W : World) C body meta e line m program_id code :
  ERROR_DB W = json_of_catalog C ->
  fetched W body meta ->
  err meta = Some e ->
  first_match (or_empty (log_messages meta)) line m ->
  m !! 1%nat = Some program_id ->
  m !! 2%nat = Some code ->
  catalog_entry C program_id (ascii_lower <$> code) = None ->
  analyze_transaction W body
  = Return (response_error_unknown program_id (display_name C program_id)
              (ascii_lower <$> code) line)
  /\ line ∈ or_empty (log_messages meta).
Proof.
  intros HDB Hf He Hfirst H1 H2 Hentry. split.
  - rewrite (analyze_fetched W body meta Hf).
    rewrite (classify_matched W C meta e line m program_id code) by assumption.
    now rewrite Hentry.
  - now apply (first_match_in _ line m).
Qed.

Lemma classify_error_unknown_witness :
  analyze_transaction (demo_world demo_env) {| signature := py "failed-unknown" |}
  = Return (response_error_unknown (py "DEF456")
              (display_name demo_catalog (py "DEF456"))
              (ascii_lower <$> py "0x2")
              (py "Program DEF456 failed: custom program error: 0x2"))
  /\ py "Program DEF456 failed: custom program error: 0x2"
     ∈ or_empty (Some (drop 2 demo_logs)).
Proof.
  apply (classify_error_unknown (demo_world demo_env) demo_catalog
           {| signature := py "failed-unknown" |}
           {| err := Some tt; log_messages := Some (drop 2 demo_logs) |} tt
           (py "Program DEF456 failed: custom program error: 0x2")
           (<[0%nat := py "Program DEF456 failed: custom program error: 0x2"]>
              (<[2%nat := py "0x2"]> (<[1%nat := py "DEF456"]> ∅)))
           (py "DEF456") (py "0x2")).
  - reflexivity.
  - exists (py "http://localhost:8899").
    split; [vm_compute; reflexivity|]. split; [discriminate|].
    vm_compute. reflexivity.
  - reflexivity.
  - exists [], []. split; [reflexivity|]. split; [constructor|].
    vm_compute. reflexivity.
  - vm_compute. reflexivity.
  - vm_compute. reflexivity.
  - vm_compute. reflexivity.
Defined.

(** X3.  A failed transaction in whose logs no line has the pattern is
    answered [error_unparsed] with all of its log lines, in order, as
    [raw_logs]. *)
Theorem classify_unparsed_keeps_logs (W : World) body meta e :
  fetched W body meta ->
  err meta = Some e ->
  no_match (or_empty (log_messages meta)) ->
  analyze_transaction W body
  = Return (response_error_unparsed (or_empty (log_messages meta))).
Proof.
  intros Hf He Hall. rewrite (analyze_fetched W body meta Hf).
  unfold classify. rewrite He. cbn zeta.
  now rewrite (scan_logs_none W _ Hall).
Qed.

Lemma classify_unparsed_keeps_logs_witness :
  analyze_transaction (constant_world PyNone system_failure)
    {| signature := py "any" |}
  = Return (response_error_unparsed
              (or_empty (log_messages system_failure))).
Proof.
  apply (classify_unparsed_keeps_logs (constant_world PyNone system_failure)
           {| signature := py "any" |} system_failure tt).
  - exists (py "http://localhost:8899").
    split; [vm_compute; reflexivity|]. split; [discriminate|]. reflexivity.
  - reflexivity.
  - constructor; [vm_compute; reflexivity|].
    constructor; [vm_compute; reflexivity|constructor].
Defined.

Lemma status_of_dict (s : pystr) (rest : list (pystr * pyval)) :
  status_of (Return (dict ((py "status", PyStr s) :: rest))) = Some s.
Proof.
  unfold status_of, dict. simpl list_to_map. now rewrite lookup_insert_eq.
Qed.

Ltac wrong_status :=
  let H := fresh in intros H; vm_compute in H; discriminate H.

(** X4.  The [status] of the answer identifies the state, and the four
    states exclude each other: for a fetched record and a catalogue of the
    specified shape, [success] is answered exactly for a transaction
    without error, [error_unparsed] exactly for a failed one with no
    matching line, [error_found] and [error_unknown] exactly for a failed
    one whose first matching line names a pair the catalogue has,
    respectively has not, an entry for. *)
Theorem status_identifies_state (W : World) C body meta :
  ERROR_DB W = json_of_catalog C ->
  fetched W body meta ->
  (status_of (analyze_transaction W body) = Some (py "success")
   <-> err meta = None)
  /\ (status_of (analyze_transaction W body) = Some (py "error_unparsed")
      <-> err meta <> None /\ no_match (or_empty (log_messages meta)))
  /\ (status_of (analyze_transaction W body) = Some (py "error_found")
      <-> err meta <> None
          /\ exists line m program_id code,
               first_match (or_empty (log_messages meta)) line m
               /\ m !! 1%nat = Some program_id /\ m !! 2%nat = Some code
               /\ is_Some (catalog_entry C program_id (ascii_lower <$> code)))
  /\ (status_of (analyze_transaction W body) = Some (py "error_unknown")
      <-> err meta <> None
          /\ exists line m program_id code,
               first_match (or_empty (log_messages meta)) line m
               /\ m !! 1%nat = Some program_id /\ m !! 2%nat = Some code
               /\ catalog_entry C program_id (ascii_lower <$> code) = None).
Proof.
  intros HDB Hf. rewrite (analyze_fetched W body meta Hf).
  destruct (err meta) as [e|] eqn:He.
  - destruct (scan_logs_cases W (or_empty (log_messages meta)))
      as [[Hall _]|(line & m & pid & code & Hfirst & H1 & H2 & _ & _)].
    + rewrite (classify_unparsed W meta e He Hall).
      unfold response_error_unparsed. rewrite status_of_dict.
      split; [split; [wrong_status|discriminate]|].
      split; [split; [now split|reflexivity]|].
      split; (split; [wrong_status|]);
        intros (_ & l & m & ? & ? & Hfirst & _);
        now destruct (first_match_excludes_no_match _ _ _ Hfirst Hall).
    + rewrite (classify_matched W C meta e line m pid code) by assumption.
      assert (Hsame : forall l' m' pid' code',
                first_match (or_empty (log_messages meta)) l' m' ->
                m' !! 1%nat = Some pid' -> m' !! 2%nat = Some code' ->
                pid' = pid /\ code' = code).
      { intros l' m' pid' code' Hf' H1' H2'.
        destruct (first_match_unique _ _ _ _ _ Hf' Hfirst) as [_ ->].
        split; congruence. }
      destruct (catalog_entry C pid (ascii_lower <$> code)) as [entry|] eqn:Hentry.
      * unfold response_error_found. rewrite status_of_dict.
        split; [split; [wrong_status|discriminate]|].
        split; [split; [wrong_status|]|].
        { intros [_ Hall].
          now destruct (first_match_excludes_no_match _ _ _ Hfirst Hall). }
        split; [split; [|reflexivity]|split; [wrong_status|]].
        { intros _. split; [discriminate|].
          exists line, m, pid, code. rewrite Hentry. eauto. }
        { intros (_ & l' & m' & pid' & code' & Hf' & H1' & H2' & Hnone).
          destruct (Hsame _ _ _ _ Hf' H1' H2') as [-> ->]. congruence. }
      * unfold response_error_unknown. rewrite status_of_dict.
        split; [split; [wrong_status|discriminate]|].
        split; [split; [wrong_status|]|].
        { intros [_ Hall].
          now destruct (first_match_excludes_no_match _ _ _ Hfirst Hall). }
        split; [split; [wrong_status|]|split; [|reflexivity]].
        { intros (_ & l' & m' & pid' & code' & Hf' & H1' & H2' & [en Hen]).
          destruct (Hsame _ _ _ _ Hf' H1' H2') as [-> ->]. congruence. }
        { intros _. split; [discriminate|].
          exists line, m, pid, code. eauto. }
  - rewrite (classify_succeeded W meta He).
    unfold response_success. rewrite status_of_dict.
    split; [split; reflexivity|].
    split; [split; [wrong_status|intros [Hne _]; now destruct Hne]|].
    split; (split; [wrong_status|intros [Hne _]; now destruct Hne]).
Qed.

Lemma status_identifies_state_witness :
  (status_of (analyze_transaction (demo_world demo_env)
                {| signature := py "failed" |}) = Some (py "success")
   <-> Some tt = None)
  /\ (status_of (analyze_transaction (demo_world demo_env)
                   {| signature := py "failed" |}) = Some (py "error_unparsed")
      <-> Some tt <> None /\ no_match (or_empty (Some demo_logs)))
  /\ (status_of (analyze_transaction (demo_world demo_env)
                   {| signature := py "failed" |}) = Some (py "error_found")
      <-> Some tt <> None
          /\ exists line m program_id code,
               first_match (or_empty (Some demo_logs)) line m
               /\ m !! 1%nat = Some program_id /\ m !! 2%nat = Some code
               /\ is_Some (catalog_entry demo_catalog program_id
                             (ascii_lower <$> code)))
  /\ (status_of (analyze_transaction (demo_world demo_env)
                   {| signature := py "failed" |}) = Some (py "error_unknown")
      <-> Some tt <> None
          /\ exists line m program_id code,
               first_match (or_empty (Some demo_logs)) line m
               /\ m !! 1%nat = Some program_id /\ m !! 2%nat = Some code
               /\ catalog_entry demo_catalog program_id
                    (ascii_lower <$> code) = None).
Proof.
  apply (status_identifies_state (demo_world demo_env) demo_catalog
           {| signature := py "failed" |}
           {| err := Some tt; log_messages := Some demo_logs |}).
  - reflexivity.
  - exists (py "http://localhost:8899").
    split; [vm_compute; reflexivity|]. split; [discriminate|].
    vm_compute. reflexivity.
Defined.

Ltac answer_shape :=
  intros [= <-]; eexists; split; [reflexivity|]; split;
  [ simpl list_to_map; rewrite ?lookup_insert_ne by discriminate;
    rewrite lookup_insert_eq; eauto
  | unfold status_of, dict; simpl list_to_map; rewrite lookup_insert_eq;
    first [ left; reflexivity | right; left; reflexivity
          | right; right; left; reflexivity | right; right; right; reflexivity ] ].

(** X5.  Whatever the catalogue object holds, a value the handler returns
    is a dict with a [message] and with a [status] that is one of
    [success], [error_unparsed], [error_found], [error_unknown]. *)
Theorem returned_answer_shape (W : World) body v :
  analyze_transaction W body = Return v ->
  exists d,
    v = PyDict d
    /\ is_Some (d !! py "message")
    /\ (status_of (Return v) = Some (py "success")
        \/ status_of (Return v) = Some (py "error_unparsed")
        \/ status_of (Return v) = Some (py "error_found")
        \/ status_of (Return v) = Some (py "error_unknown")).
Proof.
  unfold analyze_transaction.
  destruct (environ W !! py "SOLANA_RPC_URL") as [[|c url]|]; try discriminate.
  destruct (fetch_transaction W (c :: url) body) as [exc|[meta|]];
    [destruct (is_ValueError exc); discriminate| |discriminate].
  unfold classify. destruct (err meta) as [e|]; [|answer_shape].
  cbn zeta.
  destruct (scan_logs W (or_empty (log_messages meta)))
    as [[[[pid code] line]|]|ex]; [| |discriminate].
  - rewrite bind_return.
    destruct (_lookup_error W pid code) as [info|ex]; [|discriminate].
    rewrite bind_return.
    destruct (_program_name W pid) as [pname|ex];
      [|destruct (truthy info); discriminate].
    destruct (truthy info); rewrite bind_return; [|answer_shape].
    destruct (getitem info (py "name")) as [name|ex]; [|discriminate].
    rewrite bind_return.
    destruct (getitem info (py "message")) as [message|ex]; [|discriminate].
    rewrite bind_return. answer_shape.
  - rewrite bind_return. answer_shape.
Qed.

Lemma returned_answer_shape_witness :
  exists d,
    response_error_unparsed (or_empty (log_messages system_failure)) = PyDict d
    /\ is_Some (d !! py "message")
    /\ (status_of (Return (response_error_unparsed
                             (or_empty (log_messages system_failure))))
        = Some (py "success")
        \/ status_of (Return (response_error_unparsed
                                (or_empty (log_messages system_failure))))
           = Some (py "error_unparsed")
        \/ status_of (Return (response_error_unparsed
                                (or_empty (log_messages system_failure))))
           = Some (py "error_found")
        \/ status_of (Return (response_error_unparsed
                                (or_empty (log_messages system_failure))))
           = Some (py "error_unknown")).
Proof.
  apply (returned_answer_shape (constant_world PyNone system_failure)
           {| signature := py "any" |}).
  vm_compute. reflexivity.
Defined.

(** ** Which match the pattern search reports *)

Lemma search_from_position ic r s m :
  search_from ic r s = Some m ->
  exists pre s',
    s = pre ++ s'
    /\ sre_match ic r s' ∅
         (fun rest g => Some (<[0%nat := take (length s' - length rest) s']> g))
       = Some m
    /\ forall pre1 pre2,
         pre = pre1 ++ pre2 -> pre2 <> [] ->
         sre_match ic r (pre2 ++ s') ∅
           (fun rest g =>
              Some (<[0%nat := take (length (pre2 ++ s') - length rest)
                                 (pre2 ++ s')]> g))
         = None.
Proof.
  induction s as [|c s IH]; rewrite search_from_unfold;
    destruct (sre_match ic r _ ∅ _) as [m0|] eqn:E; try discriminate.
  - intros [= ->]. exists [], []. split; [reflexivity|]. split; [exact E|].
    intros pre1 pre2 H Hne. symmetry in H. apply app_eq_nil in H as [_ ->].
    congruence.
  - intros [= ->]. exists [], (c :: s). split; [reflexivity|]. split; [exact E|].
    intros pre1 pre2 H Hne. symmetry in H. apply app_eq_nil in H as [_ ->].
    congruence.
  - intros H. destruct (IH H) as (pre & s' & -> & Hm & Hnone).
    exists (c :: pre), s'. split; [reflexivity|]. split; [exact Hm|].
    intros pre1 pre2 Hpre Hne. destruct pre1 as [|c1 pre1].
    + simpl in Hpre. subst pre2. exact E.
    + injection Hpre as -> ->. exact (Hnone pre1 pre2 eq_refl Hne).
Qed.

Lemma split_at_shorter {A} (l1 a l2 b : list A) :
  l1 ++ a = l2 ++ b -> (length l2 < length l1)%nat ->
  exists l, l1 = l2 ++ l /\ l <> [] /\ b = l ++ a.
Proof.
  revert l2. induction l1 as [|x l1 IH]; intros l2 E Hlen; simpl in *; [lia|].
  destruct l2 as [|y l2]; simpl in *.
  - exists (x :: l1). subst b. auto.
  - injection E as <- E. destruct (IH l2 E) as (l & -> & Hne & ->); [lia|].
    exists l. auto.
Qed.

(** X6.  The search reports the leftmost occurrence: group 0 is a stretch
    of the line, and every text of the form that the line contains starts
    at or after the place where that stretch starts. *)
Theorem search_is_leftmost (line : pystr) (m : groups) :
  search _ERROR_PATTERN line = Some m ->
  exists pre t suf,
    line = pre ++ t ++ suf
    /\ m !! 0%nat = Some t
    /\ forall pre' t' suf' program_id code,
         line = pre' ++ t' ++ suf' ->
         custom_error_text t' program_id code ->
         (length pre <= length pre')%nat.
Proof.
  intros H. apply search_from_position in H as (pre & s' & -> & Hm & Hnone).
  pose proof Hm as Hm'.
  apply sre_match_sound in Hm' as (t & suf & g' & -> & _ & [= <-]).
  rewrite take_matched.
  exists pre, t, suf. split; [reflexivity|]. split; [apply lookup_insert_eq|].
  intros pre' t' suf' pid code E Ht.
  destruct (Nat.le_gt_cases (length pre) (length pre')) as [|Hlt]; [assumption|].
  exfalso.
  destruct (split_at_shorter _ _ _ _ E Hlt) as (pre2 & Hpre & Hne & E2).
  specialize (Hnone pre' pre2 Hpre Hne). rewrite <- E2 in Hnone.
  assert (Hsome : is_Some (sre_match true (re_code _ERROR_PATTERN) (t' ++ suf') ∅
            (fun rest g =>
               Some (<[0%nat := take (length (t' ++ suf') - length rest)
                                  (t' ++ suf')]> g)))).
  { eapply sre_match_complete; [|eauto].
    apply error_pattern_matches. eauto. }
  destruct Hsome as [x Hx]. unfold _ERROR_PATTERN in Hx. cbn [re_code] in Hx.
  unfold _ERROR_PATTERN in Hnone. cbn [re_code IGNORECASE] in Hnone.
  congruence.
Qed.

Lemma search_is_leftmost_witness :
  exists pre t suf,
    py "Program a failed: x; Program b failed: custom program error: 0x1; Program c failed: custom program error: 0x2"
    = pre ++ t ++ suf
    /\ (<[0%nat := py "Program b failed: custom program error: 0x1"]>
          (<[2%nat := py "0x1"]> (<[1%nat := py "b"]> ∅)) : groups) !! 0%nat
       = Some t
    /\ forall pre' t' suf' program_id code,
         py "Program a failed: x; Program b failed: custom program error: 0x1; Program c failed: custom program error: 0x2"
         = pre' ++ t' ++ suf' ->
         custom_error_text t' program_id code ->
         (length pre <= length pre')%nat.
Proof.
  apply search_is_leftmost. vm_compute. reflexivity.
Defined.

Lemma variant_of_space (c : N) : 0x20 ∈ case_variants c <-> c = 0x20.
Proof.
  rewrite <- literal_ignorecase. unfold atom_match, atom_plain, case_variants.
  compare_codes.
Qed.

(** X7.  What a match captures: group 0 is a stretch of the line of the
    form [Program <program_id> failed: custom program error: <code>];
    group 1 is the program_id, a whole word of it: non-empty, free of
    whitespace, with a space before and after; group 2 is the code, a
    hexadecimal literal; there is no other group. *)
Theorem match_captures (line : pystr) (m : groups) :
  search _ERROR_PATTERN line = Some m ->
  exists pre suf P0 program_id F0 code,
    line = pre ++ (P0 ++ [0x20] ++ program_id ++ [0x20] ++ F0 ++ code) ++ suf
    /\ m !! 0%nat = Some (P0 ++ [0x20] ++ program_id ++ [0x20] ++ F0 ++ code)
    /\ m !! 1%nat = Some program_id
    /\ m !! 2%nat = Some code
    /\ nonspace_token program_id
    /\ hex_literal code
    /\ same_ignoring_case (py "Program") P0
    /\ same_ignoring_case (py "failed: custom program error: ") F0
    /\ forall n, (2 < n)%nat -> m !! n = None.
Proof.
  intros H.
  apply search_error_pattern_sound in H
    as (pre & t & suf & pid & code & -> & (P & F & -> & HP & Hpid & HF & Hcode) & ->).
  change (py "Program ") with (py "Program" ++ [0x20]) in HP.
  apply Forall2_app_inv_l in HP as (P0 & P1 & HP0 & HP1 & ->).
  apply Forall2_cons_inv_l in HP1 as (c1 & P2 & Hc1 & HP2 & ->).
  apply Forall2_nil_inv_l in HP2 as ->. apply variant_of_space in Hc1 as ->.
  change (py " failed: custom program error: ")
    with (0x20 :: py "failed: custom program error: ") in HF.
  apply Forall2_cons_inv_l in HF as (c2 & F0 & Hc2 & HF0 & ->).
  apply variant_of_space in Hc2 as ->.
  exists pre, suf, P0, pid, F0, code.
  rewrite <- !app_assoc. simpl.
  split; [reflexivity|]. split; [apply lookup_insert_eq|].
  split; [rewrite lookup_insert_ne, lookup_insert_ne, lookup_insert_eq; done|].
  split; [rewrite lookup_insert_ne, lookup_insert_eq; done|].
  repeat (split; [assumption|]).
  intros n Hn.
  rewrite !lookup_insert_ne by lia. apply lookup_empty.
Qed.

Lemma match_captures_witness :
  exists pre suf P0 program_id F0 code,
    py "> PROGRAM Tok1 Failed: custom program error: 0XfF (2)"
    = pre ++ (P0 ++ [0x20] ++ program_id ++ [0x20] ++ F0 ++ code) ++ suf
    /\ (<[0%nat := py "PROGRAM Tok1 Failed: custom program error: 0XfF"]>
          (<[2%nat := py "0XfF"]> (<[1%nat := py "Tok1"]> ∅)) : groups) !! 0%nat
       = Some (P0 ++ [0x20] ++ program_id ++ [0x20] ++ F0 ++ code)
    /\ (<[0%nat := py "PROGRAM Tok1 Failed: custom program error: 0XfF"]>
          (<[2%nat := py "0XfF"]> (<[1%nat := py "Tok1"]> ∅)) : groups) !! 1%nat
       = Some program_id
    /\ (<[0%nat := py "PROGRAM Tok1 Failed: custom program error: 0XfF"]>
          (<[2%nat := py "0XfF"]> (<[1%nat := py "Tok1"]> ∅)) : groups) !! 2%nat
       = Some code
    /\ nonspace_token program_id
    /\ hex_literal code
    /\ same_ignoring_case (py "Program") P0
    /\ same_ignoring_case (py "failed: custom program error: ") F0
    /\ forall n, (2 < n)%nat ->
         (<[0%nat := py "PROGRAM Tok1 Failed: custom program error: 0XfF"]>
            (<[2%nat := py "0XfF"]> (<[1%nat := py "Tok1"]> ∅)) : groups) !! n
         = None.
Proof.
  apply match_captures. vm_compute. reflexivity.
Defined.

Lemma after_run_split (p : N -> bool) (s : pystr) :
  exists run,
    s = run ++ after_run p s /\ Forall (fun c => p c = true) run.
Proof.
  induction s as [|c s (run & E & Hrun)]; simpl.
  - exists []. auto.
  - destruct (p c) eqn:Hc; [|exists []; auto].
    exists (c :: run). split; [simpl; congruence|auto].
Qed.

Lemma after_run_head (p : N -> bool) (s : pystr) c rest :
  after_run p s = c :: rest -> p c = false.
Proof.
  induction s as [|c0 s IH]; simpl; [discriminate|].
  destruct (p c0) eqn:Hc; [exact IH|]. now intros [= <- _].
Qed.

Lemma repeat_greedy_total {R} (p : N -> bool) (s : pystr) (k : pystr -> option R) :
  (forall s', is_Some (k s')) ->
  repeat_greedy p s k = k (after_run p s).
Proof.
  intros Hk. induction s as [|c s IH]; simpl; [reflexivity|].
  destruct (p c); [|reflexivity].
  rewrite IH. now destruct (Hk (after_run p s)) as [r ->].
Qed.

Lemma sre_match_literals {R} ic w tail s g (k : pystr -> groups -> option R) res :
  sre_match ic (literals w tail) s g k = Some res ->
  exists w' s', s = w' ++ s' /\ sre_match ic tail s' g k = Some res.
Proof.
  revert s. induction w as [|ch w IH]; intros s H.
  - exists [], s. auto.
  - change (literals (ch :: w) tail)
      with (SEQ (ATOM (LITERAL ch)) (literals w tail)) in H.
    cbn [sre_match] in H.
    destruct s as [|c s]; [discriminate|].
    destruct (atom_match ic (LITERAL ch) c); [|discriminate].
    apply IH in H as (w' & s' & -> & H). exists (c :: w'), s'. auto.
Qed.

Lemma whole_match_take (s t rest : pystr) :
  s = t ++ rest -> take (length s - length rest) s = t.
Proof. intros ->. apply take_matched. Qed.

(** X8.  The code of a match is never cut short: the stretch of the line
    that is matched ends with the captured code, and the character that
    follows it in the line, if there is one, is not a hexadecimal digit. *)
Theorem code_is_longest (line : pystr) (m : groups) :
  search _ERROR_PATTERN line = Some m ->
  exists pre t suf code,
    line = pre ++ t ++ suf
    /\ m !! 0%nat = Some t
    /\ m !! 2%nat = Some code
    /\ (exists u, t = u ++ code)
    /\ match suf with
       | c :: _ => hex_digit c = false
       | [] => True
       end.
Proof.
  intros H. apply search_from_position in H as (pre & s & -> & H & _).
  unfold _ERROR_PATTERN in H. cbn [re_code IGNORECASE] in H.
  apply sre_match_literals in H as (P & s1 & -> & H).
  change (sre_match true (SEQ ?r1 ?r2) ?s ?g ?k)
    with (sre_match true r1 s g (fun s1 g1 => sre_match true r2 s1 g1 k)) in H.
  apply sre_match_sound in H as (pid & s2 & g1 & -> & _ & H).
  apply sre_match_literals in H as (F & s3 & -> & H).
  change (sre_match true (SUBPATTERN ?n ?r) ?s ?g ?k)
    with (sre_match true r s g
            (fun rest g' => k rest (<[n := take (length s - length rest) s]> g')))
    in H.
  apply sre_match_literals in H as (X & s4 & -> & H).
  destruct s4 as [|c s5]; [discriminate|].
  cbn [sre_match] in H.
  destruct (atom_match true (IN hex_ranges) c) eqn:Hc; [|discriminate].
  rewrite repeat_greedy_total in H by eauto.
  destruct (after_run_split (atom_match true (IN hex_ranges)) s5)
    as (run & Es5 & Hrun).
  set (rest := after_run (atom_match true (IN hex_ranges)) s5) in *.
  rewrite (whole_match_take (X ++ c :: s5) (X ++ c :: run) rest) in H
    by (rewrite Es5 at 1; now rewrite <- app_assoc).
  rewrite (whole_match_take _ (P ++ pid ++ F ++ X ++ c :: run) rest) in H
    by (rewrite Es5 at 1; now rewrite <- !app_assoc).
  injection H as <-.
  exists pre, (P ++ pid ++ F ++ X ++ c :: run), rest, (X ++ c :: run).
  split; [rewrite Es5 at 1; now rewrite <- !app_assoc|].
  split; [apply lookup_insert_eq|].
  split; [rewrite lookup_insert_ne, lookup_insert_eq; done|].
  split; [exists (P ++ pid ++ F); now rewrite <- !app_assoc|].
  destruct rest as [|c' rest'] eqn:Erest; [exact I|].
  rewrite <- hex_ignorecase. exact (after_run_head _ _ _ _ Erest).
Qed.

Lemma code_is_longest_witness :
  exists pre t suf code,
    py "Program Tok1 failed: custom program error: 0x1771g9" = pre ++ t ++ suf
    /\ (<[0%nat := py "Program Tok1 failed: custom program error: 0x1771"]>
          (<[2%nat := py "0x1771"]> (<[1%nat := py "Tok1"]> ∅)) : groups) !! 0%nat
       = Some t
    /\ (<[0%nat := py "Program Tok1 failed: custom program error: 0x1771"]>
          (<[2%nat := py "0x1771"]> (<[1%nat := py "Tok1"]> ∅)) : groups) !! 2%nat
       = Some code
    /\ (exists u, t = u ++ code)
    /\ match suf with
       | c :: _ => hex_digit c = false
       | [] => True
       end.
Proof.
  apply code_is_longest. vm_compute. reflexivity.
Defined.

(** ** The signature *)

(** X9.  Whitespace around the signature does not count: a signature with
    any whitespace characters before and after it gets the answer of the
    signature itself. *)
Theorem analyze_ignores_padding (W : World) (pre s suf : pystr) :
  Forall (fun c => Py_UNICODE_ISSPACE c = true) pre ->
  Forall (fun c => Py_UNICODE_ISSPACE c = true) suf ->
  analyze_transaction W {| signature := pre ++ s ++ suf |}
  = analyze_transaction W {| signature := s |}.
Proof.
  intros Hpre Hsuf. unfold analyze_transaction, fetch_transaction.
  cbn [signature]. now rewrite (strip_padding pre s suf Hpre Hsuf).
Qed.

Lemma analyze_ignores_padding_witness :
  analyze_transaction (demo_world demo_env)
    {| signature := [0x09; 0x20] ++ py "failed" ++ [0x0D; 0x0A; 0x3000] |}
  = analyze_transaction (demo_world demo_env) {| signature := py "failed" |}.
Proof.
  apply analyze_ignores_padding; repeat constructor.
Defined.

(** ** The catalogue helpers *)

(** X10.  Store and find: an entry that a program of the catalogue holds
    under the lower-case form of an ASCII code is what the lookup returns
    for that code, however the letters of the query are cased. *)
Theorem lookup_error_finds_entry (W : World) C program_id p entry error_code :
  ERROR_DB W = json_of_catalog C ->
  C !! program_id = Some p ->
  isascii error_code = true ->
  program_errors p !! (ascii_lower <$> error_code) = Some entry ->
  _lookup_error W program_id error_code = Return (json_of_error entry).
Proof.
  intros HDB Hp Ha He.
  rewrite (lookup_error_catalog W C) by exact HDB.
  rewrite lower_ascii by exact Ha.
  unfold catalog_entry. rewrite Hp. cbn [mbind option_bind]. now rewrite He.
Qed.

Lemma lookup_error_finds_entry_witness :
  _lookup_error (demo_world demo_env) (py "ABC123") (py "0X1")
  = Return (json_of_error {| error_name := py "Unauthorized";
                             error_message := py "Signer mismatch" |}).
Proof.
  apply (lookup_error_finds_entry (demo_world demo_env) demo_catalog
           (py "ABC123")
           {| program_name := py "Demo Program";
              program_errors :=
                {[ py "0x1" := {| error_name := py "Unauthorized";
                                  error_message := py "Signer mismatch" |} ]} |});
    vm_compute; reflexivity.
Defined.

Lemma ascii_lower_not_upper (c : N) : is_upper (ascii_lower c) = false.
Proof. unfold is_upper, ascii_lower. compare_codes. Qed.

(** X11.  Keys with a capital letter are out of reach: what the lookup
    returns for an ASCII code is [None] or the entry stored under the
    lower-cased code, a key without upper-case ASCII letters; an entry
    filed under a key that has one is returned for no ASCII query. *)
Theorem lookup_error_reads_lower_keys (W : World) C program_id error_code v :
  ERROR_DB W = json_of_catalog C ->
  isascii error_code = true ->
  _lookup_error W program_id error_code = Return v ->
  v = PyNone
  \/ exists p key entry,
       C !! program_id = Some p
       /\ program_errors p !! key = Some entry
       /\ v = json_of_error entry
       /\ key = ascii_lower <$> error_code
       /\ Forall (fun c => is_upper c = false) key.
Proof.
  intros HDB Ha. rewrite (lookup_error_catalog W C) by exact HDB.
  rewrite lower_ascii by exact Ha. unfold catalog_entry.
  destruct (C !! program_id) as [p|]; cbn [mbind option_bind];
    [|intros [= <-]; now left].
  destruct (program_errors p !! (ascii_lower <$> error_code)) as [entry|] eqn:He;
    cbn [from_option]; intros [= <-]; [right|now left].
  exists p, (ascii_lower <$> error_code), entry.
  repeat (split; [auto; fail|]).
  apply Forall_fmap, Forall_forall. intros c _. apply ascii_lower_not_upper.
Qed.

Lemma lookup_error_reads_lower_keys_witness :
  json_of_error {| error_name := py "Unauthorized";
                   error_message := py "Signer mismatch" |} = PyNone
  \/ exists p key entry,
       demo_catalog !! py "ABC123" = Some p
       /\ program_errors p !! key = Some entry
       /\ json_of_error {| error_name := py "Unauthorized";
                           error_message := py "Signer mismatch" |}
          = json_of_error entry
       /\ key = ascii_lower <$> py "0X1"
       /\ Forall (fun c => is_upper c = false) key.
Proof.
  apply (lookup_error_reads_lower_keys (demo_world demo_env) demo_catalog
           (py "ABC123") (py "0X1")); vm_compute; reflexivity.
Defined.

(** X12.  An entry that is there but false counts as absent: when the
    catalogue object is a dict in which the program is missing, or maps to
    a false value ([null], an empty object, an empty string, zero, ...),
    the lookup returns [None] for every code and the program's name is its
    identifier; neither helper raises. *)
Theorem absent_or_false_entry (W : World) d program_id error_code :
  ERROR_DB W = PyDict d ->
  d !! program_id = None
  \/ (exists v, d !! program_id = Some v /\ truthy v = false) ->
  _lookup_error W program_id error_code = Return PyNone
  /\ _program_name W program_id = Return (PyStr program_id).
Proof.
  intros HDB H. unfold _lookup_error, _program_name.
  rewrite HDB, dict_get_dict, !bind_return.
  destruct H as [-> | (v & -> & Hv)]; cbn [from_option id truthy negb].
  - split; reflexivity.
  - rewrite !Hv. split; reflexivity.
Qed.

Lemma absent_or_false_entry_witness :
  (_lookup_error (constant_world odd_db system_failure) (py "Empty") (py "0x1")
   = Return PyNone
   /\ _program_name (constant_world odd_db system_failure) (py "Empty")
      = Return (PyStr (py "Empty")))
  /\ (_lookup_error (constant_world odd_db system_failure) (py "Null") (py "0x1")
      = Return PyNone
      /\ _program_name (constant_world odd_db system_failure) (py "Null")
         = Return (PyStr (py "Null"))).
Proof.
  split.
  - apply (absent_or_false_entry (constant_world odd_db system_failure)
             (list_to_map [(py "NoName", dict [(py "note", PyStr (py "to do"))]);
                           (py "Empty", dict []);
                           (py "Null", PyNone)])); [reflexivity|].
    right. exists (dict []). split; vm_compute; reflexivity.
  - apply (absent_or_false_entry (constant_world odd_db system_failure)
             (list_to_map [(py "NoName", dict [(py "note", PyStr (py "to do"))]);
                           (py "Empty", dict []);
                           (py "Null", PyNone)])); [reflexivity|].
    right. exists PyNone. split; vm_compute; reflexivity.
Defined.

Lemma truthy_nonempty_dict (entry : gmap pystr pyval) :
  entry <> ∅ -> truthy (PyDict entry) = true.
Proof.
  intros Hne. simpl. now apply negb_true_iff, Nat.eqb_neq, map_size_non_empty_iff.
Qed.

Lemma program_name_no_name_key (W : World) d program_id entry :
  ERROR_DB W = PyDict d ->
  d !! program_id = Some (PyDict entry) ->
  entry <> ∅ ->
  entry !! py "name" = None ->
  _program_name W program_id = Raise (KeyError (py "name")).
Proof.
  intros HDB Hp Hne Hn. unfold _program_name.
  rewrite HDB, dict_get_dict, bind_return, Hp.
  cbn [from_option id]. rewrite (truthy_nonempty_dict entry Hne).
  unfold getitem. now rewrite Hn.
Qed.

Lemma lookup_error_in_dict_entry (W : World) d program_id entry error_code :
  ERROR_DB W = PyDict d ->
  d !! program_id = Some (PyDict entry) ->
  entry <> ∅ ->
  _lookup_error W program_id error_code
  = dict_get (default (PyDict ∅) (entry !! py "errors"))
      (lower (unicode_lower W) error_code) PyNone.
Proof.
  intros HDB Hp Hne. unfold _lookup_error.
  rewrite HDB, dict_get_dict, bind_return, Hp.
  cbn [from_option id]. rewrite (truthy_nonempty_dict entry Hne). cbn [negb].
  now rewrite dict_get_dict, bind_return.
Qed.

(** X13.  Missing keys are treated unevenly: for a program whose entry is
    a non-empty object, a missing [errors] key makes the lookup return
    [None] for every code, while a missing [name] key makes
    [_program_name] raise [KeyError]. *)
Theorem entry_missing_keys (W : World) d program_id entry :
  ERROR_DB W = PyDict d ->
  d !! program_id = Some (PyDict entry) ->
  entry <> ∅ ->
  (entry !! py "errors" = None ->
   forall error_code, _lookup_error W program_id error_code = Return PyNone)
  /\ (entry !! py "name" = None ->
      _program_name W program_id = Raise (KeyError (py "name"))).
Proof.
  intros HDB Hp Hne. split.
  - intros He code.
    rewrite (lookup_error_in_dict_entry W d program_id entry) by assumption.
    now rewrite He.
  - intros Hn. exact (program_name_no_name_key W d program_id entry HDB Hp Hne Hn).
Qed.

Lemma entry_missing_keys_witness :
  _lookup_error (constant_world odd_db system_failure) (py "NoName") (py "0x1")
  = Return PyNone
  /\ _program_name (constant_world odd_db system_failure) (py "NoName")
     = Raise (KeyError (py "name")).
Proof.
  destruct (entry_missing_keys (constant_world odd_db system_failure)
              (list_to_map [(py "NoName", dict [(py "note", PyStr (py "to do"))]);
                            (py "Empty", dict []);
                            (py "Null", PyNone)])
              (py "NoName")
              (list_to_map [(py "note", PyStr (py "to do"))])
              eq_refl) as [H1 H2].
  - vm_compute. reflexivity.
  - apply insert_non_empty.
  - split; [apply H1|apply H2]; vm_compute; reflexivity.
Defined.

(** X14.  What the helpers can raise: the lookup, which reads with [get]
    throughout, raises nothing but [AttributeError]; [_program_name] raises
    nothing but [AttributeError], [TypeError] and [KeyError] for [name]. *)
Theorem helpers_exceptions (W : World) program_id error_code ex :
  (_lookup_error W program_id error_code = Raise ex -> ex = AttributeError)
  /\ (_program_name W program_id = Raise ex ->
      ex = AttributeError \/ ex = TypeError \/ ex = KeyError (py "name")).
Proof.
  unfold _lookup_error, _program_name, dict_get, getitem. split.
  - destruct (ERROR_DB W) as [| | | | | |d]; simpl; try (now intros [= <-]).
    destruct (default PyNone (d !! program_id)) as [| | | | | |e] eqn:E;
      simpl; try discriminate;
      repeat match goal with
        | |- context [if ?b then _ else _] => destruct b; simpl
        end;
      try discriminate; try (now intros [= <-]).
    destruct (default (PyDict ∅) (e !! py "errors")); simpl;
      try discriminate; now intros [= <-].
  - destruct (ERROR_DB W) as [| | | | | |d]; simpl; try (intros [= <-]; auto).
    destruct (default PyNone (d !! program_id)) as [| | | | | |e] eqn:E;
      simpl; try discriminate;
      repeat match goal with
        | |- context [if ?b then _ else _] => destruct b; simpl
        end;
      try discriminate; try (intros [= <-]; auto).
    destruct (e !! py "name"); [discriminate|]. intros [= <-]. auto.
Qed.

Lemma helpers_exceptions_witness :
  KeyError (py "name") = AttributeError
  \/ KeyError (py "name") = TypeError
  \/ KeyError (py "name") = KeyError (py "name").
Proof.
  apply (proj2 (helpers_exceptions (constant_world odd_db system_failure)
                  (py "NoName") (py "0x1") (KeyError (py "name")))).
  vm_compute. reflexivity.
Defined.

(** X15.  A nameless entry breaks the request: when a failed transaction
    has a matching line for a program whose catalogue entry is a non-empty
    object without [name] (its [errors], if any, being an object), the
    handler ends with an uncaught [KeyError], whether or not the code is
    known. *)
Theorem analyze_nameless_entry_raises
    (W : World) d body meta e line m program_id entry :
  ERROR_DB W = PyDict d ->
  fetched W body meta ->
  err meta = Some e ->
  first_match (or_empty (log_messages meta)) line m ->
  m !! 1%nat = Some program_id ->
  d !! program_id = Some (PyDict entry) ->
  entry <> ∅ ->
  entry !! py "name" = None ->
  entry !! py "errors" = None
  \/ (exists errors, entry !! py "errors" = Some (PyDict errors)) ->
  analyze_transaction W body = Raise (KeyError (py "name")).
Proof.
  intros HDB Hf He Hfirst H1 Hp Hne Hn Herrors.
  destruct (scan_logs_first W _ _ _ Hfirst)
    as (pid & code' & H1' & _ & _ & _ & Hscan).
  rewrite H1 in H1'. injection H1' as <-.
  rewrite (analyze_fetched W body meta Hf).
  unfold classify. rewrite He. cbn zeta. rewrite Hscan, bind_return.
  rewrite (lookup_error_in_dict_entry W d program_id entry) by assumption.
  rewrite (program_name_no_name_key W d program_id entry) by assumption.
  destruct Herrors as [-> | [errors ->]]; cbn [from_option id];
    rewrite dict_get_dict, bind_return;
    now destruct (truthy _).
Qed.

Lemma analyze_nameless_entry_raises_witness :
  analyze_transaction (constant_world odd_db (failure_of (py "NoName")))
    {| signature := py "any" |}
  = Raise (KeyError (py "name")).
Proof.
  apply (analyze_nameless_entry_raises
           (constant_world odd_db (failure_of (py "NoName")))
           (list_to_map [(py "NoName", dict [(py "note", PyStr (py "to do"))]);
                         (py "Empty", dict []);
                         (py "Null", PyNone)])
           {| signature := py "any" |}
           (failure_of (py "NoName")) tt
           (py "Program NoName failed: custom program error: 0x1")
           (<[0%nat := py "Program NoName failed: custom program error: 0x1"]>
              (<[2%nat := py "0x1"]> (<[1%nat := py "NoName"]> ∅)))
           (py "NoName")
           (list_to_map [(py "note", PyStr (py "to do"))])).
  - reflexivity.
  - exists (py "http://localhost:8899").
    split; [vm_compute; reflexivity|]. split; [discriminate|]. reflexivity.
  - reflexivity.
  - exists [], []. split; [reflexivity|]. split; [constructor|].
    vm_compute. reflexivity.
  - vm_compute. reflexivity.
  - vm_compute. reflexivity.
  - apply insert_non_empty.
  - vm_compute. reflexivity.
  - left. vm_compute. reflexivity.
Defined.

(** ** The catalogue and the answers *)

(** X16.  The catalogue plays no part until a line matches: two requests
    with the same fetch outcome get the same answer whatever their
    catalogue objects are, well-formed or not, unless the outcome is a
    failed transaction with a matching log line. *)
Theorem catalogue_unused_without_match (W1 W2 : World) body1 body2 :
  outcome W1 body1 = outcome W2 body2 ->
  (forall logs, outcome W1 body1 = Record_ false logs -> no_match logs) ->
  analyze_transaction W1 body1 = analyze_transaction W2 body2.
Proof.
  unfold outcome, analyze_transaction.
  destruct (environ W1 !! py "SOLANA_RPC_URL") as [[|c1 url1]|],
           (environ W2 !! py "SOLANA_RPC_URL") as [[|c2 url2]|];
    try reflexivity;
    repeat match goal with
      | |- context [fetch_transaction ?W ?u ?b] =>
          destruct (fetch_transaction W u b) as [?exc|[?meta|]]
      | |- context [is_ValueError ?x] => destruct (is_ValueError x)
      end;
    try discriminate; try reflexivity.
  all: try (intros [= ->] _; reflexivity).
  intros [= Herr Hlogs] Hno.
  destruct (err meta) as [e1|] eqn:He1, (err meta0) as [e2|] eqn:He2;
    try discriminate Herr.
  - rewrite bool_decide_eq_false_2 in Hno by discriminate.
    specialize (Hno _ eq_refl).
    rewrite (classify_unparsed W1 meta e1 He1 Hno).
    rewrite Hlogs in Hno |- *.
    now rewrite (classify_unparsed W2 meta0 e2 He2 Hno).
  - now rewrite !classify_succeeded.
Qed.

Lemma catalogue_unused_without_match_witness :
  analyze_transaction (constant_world odd_db system_failure)
    {| signature := py "one" |}
  = analyze_transaction (constant_world (PyInt 7) system_failure)
      {| signature := py "other" |}.
Proof.
  apply catalogue_unused_without_match; [reflexivity|].
  intros logs [= <-].
  constructor; [vm_compute; reflexivity|].
  constructor; [vm_compute; reflexivity|constructor].
Defined.

Ltac no_such_key H :=
  simpl list_to_map in H; rewrite ?lookup_insert_ne in H by discriminate;
  rewrite lookup_empty in H; discriminate H.

Ltac read_key H :=
  simpl list_to_map in H; rewrite ?lookup_insert_ne in H by discriminate;
  rewrite lookup_insert_eq in H; injection H as <-.

(** X17.  The identifiers in an answer are normalised, whatever the
    catalogue object holds: if a returned answer has an [error_code], it is
    the string [0x] followed by one or more lower-case hexadecimal digits,
    and if it has a [program_id], it is a non-empty string free of
    whitespace. *)
Theorem answer_identifiers_normalised (W : World) body d :
  analyze_transaction W body = Return (PyDict d) ->
  (forall v, d !! py "error_code" = Some v ->
     exists hex,
       v = PyStr (py "0x" ++ hex)
       /\ hex <> [] /\ Forall (fun c => lower_hex_digit c = true) hex)
  /\ (forall v, d !! py "program_id" = Some v ->
        exists program_id, v = PyStr program_id /\ nonspace_token program_id).
Proof.
  unfold analyze_transaction.
  destruct (environ W !! py "SOLANA_RPC_URL") as [[|c url]|]; try discriminate.
  destruct (fetch_transaction W (c :: url) body) as [exc|[meta|]];
    [destruct (is_ValueError exc); discriminate| |discriminate].
  unfold classify. destruct (err meta) as [e|].
  2: { intros [= <-]. split; intros v Hv; no_such_key Hv. }
  cbn zeta.
  destruct (scan_logs_cases W (or_empty (log_messages meta)))
    as [[_ ->]|(line & m & pid & code & Hfirst & H1 & H2 & Hcode & ->)];
    rewrite bind_return.
  { intros [= <-]. split; intros v Hv; no_such_key Hv. }
  destruct (search_error_pattern_groups line m) as (pid' & code' & H1' & _ & Hpid & _).
  { now destruct Hfirst as (? & ? & _ & _ & ?). }
  rewrite H1 in H1'. injection H1' as <-.
  destruct (hex_literal_lowered code Hcode) as (hex & Hlow & Hne & Hhex).
  destruct (_lookup_error W pid (ascii_lower <$> code)) as [info|ex];
    [|discriminate].
  rewrite bind_return.
  destruct (_program_name W pid) as [pname|ex];
    [|destruct (truthy info); discriminate].
  destruct (truthy info); rewrite bind_return.
  - destruct (getitem info (py "name")) as [name|ex]; [|discriminate].
    rewrite bind_return.
    destruct (getitem info (py "message")) as [message|ex]; [|discriminate].
    rewrite bind_return. intros [= <-]. split; intros v Hv; read_key Hv.
    + exists hex. rewrite Hlow. auto.
    + exists pid. auto.
  - intros [= <-]. split; intros v Hv; read_key Hv.
    + exists hex. rewrite Hlow. auto.
    + exists pid. auto.
Qed.

Lemma answer_identifiers_normalised_witness :
  (forall v,
     (list_to_map
        [(py "status", PyStr (py "error_found"));
         (py "program_id", PyStr (py "ABC123"));
         (py "program_name", PyStr (py "Demo Program"));
         (py "error_code", PyStr (py "0x1"));
         (py "name", PyStr (py "Unauthorized"));
         (py "message", PyStr (py "Signer mismatch"))] : gmap pystr pyval)
       !! py "error_code" = Some v ->
     exists hex,
       v = PyStr (py "0x" ++ hex)
       /\ hex <> [] /\ Forall (fun c => lower_hex_digit c = true) hex)
  /\ (forall v,
        (list_to_map
           [(py "status", PyStr (py "error_found"));
            (py "program_id", PyStr (py "ABC123"));
            (py "program_name", PyStr (py "Demo Program"));
            (py "error_code", PyStr (py "0x1"));
            (py "name", PyStr (py "Unauthorized"));
            (py "message", PyStr (py "Signer mismatch"))] : gmap pystr pyval)
          !! py "program_id" = Some v ->
        exists program_id, v = PyStr program_id /\ nonspace_token program_id).
Proof.
  apply (answer_identifiers_normalised (demo_world demo_env)
           {| signature := py "failed" |}).
  vm_compute. reflexivity.
Defined.
